(** * Currency-exchange agent (aws/agent_core/agentcore_langgraph_agent.py)

    A shallow embedding of the agent's Python module and the properties of
    its specification.  Python values are a small universe of dynamically
    typed data, dictionaries are finite maps with string keys, exceptions
    are values propagated through an error monad, and the collaborators the
    module only calls (the HTTP client, the chat model, the tracer) are
    functions the definitions are parameterised by. *)

From stdpp Require Import gmap strings list fin_maps.

Set Warnings "-register-all".
Local Open Scope string_scope.

(** ** Python values *)

Module Py.

(** Dynamically typed data: [VObj] is an instance of a class with its
    attribute dictionary, [VDict] a [dict] with string keys. *)
Inductive value : Type :=
  | VNone
  | VBool (b : bool)
  | VInt (z : Z)
  | VStr (s : string)
  | VList (l : list value)
  | VDict (d : gmap string value)
  | VObj (cls : string) (attrs : gmap string value).

(** [getattr(v, name)], [None] when [hasattr(v, name)] is false: only class
    instances carry attributes the module looks at; the builtin containers,
    strings and numbers have none of that name. *)
Definition getattr (v : value) (name : string) : option value :=
  match v with
  | VObj _ attrs => attrs !! name
  | _ => None
  end.

(** An exception instance: the names of the classes on its method
    resolution order, its [str()], and its [__cause__]. *)
Inductive exc : Type :=
  | Exc (mro : list string) (msg : string) (cause : option exc).

Definition exc_mro (e : exc) : list string := let 'Exc mro _ _ := e in mro.
Definition exc_str (e : exc) : string := let 'Exc _ msg _ := e in msg.
Definition exc_cause (e : exc) : option exc := let 'Exc _ _ c := e in c.

Definition isinstance (e : exc) (cls : string) : bool :=
  bool_decide (cls ∈ exc_mro e).

Definition RuntimeError (msg : string) : exc :=
  Exc ["RuntimeError"; "Exception"; "BaseException"] msg None.

Definition ValueError (msg : string) (cause : option exc) : exc :=
  Exc ["ValueError"; "Exception"; "BaseException"] msg cause.

Definition KeyboardInterrupt : exc :=
  Exc ["KeyboardInterrupt"; "BaseException"] "" None.

(** The result of running a piece of Python: it returns or it raises. *)
Inductive outcome (A : Type) : Type :=
  | Return (a : A)
  | Raise (e : exc).
Global Arguments Return {A} a.
Global Arguments Raise {A} e.

Global Instance outcome_ret : MRet outcome := λ A a, Return a.
Global Instance outcome_bind : MBind outcome := λ A B f m,
  match m with
  | Return a => f a
  | Raise e => Raise e
  end.

(** [try: body except cls as exc: handler(exc)]. *)
Definition try_except {A} (body : outcome A) (cls : string)
    (handler : exc → outcome A) : outcome A :=
  match body with
  | Return a => Return a
  | Raise e => if isinstance e cls then handler e else Raise e
  end.

Section Str.
(** [str()] of a value that is not itself a [str] is fixed by the value's
    class ([__str__], [__repr__]); it is a parameter of the development. *)
Variable py_repr : value → string.

Definition str (v : value) : string :=
  match v with
  | VStr s => s
  | _ => py_repr v
  end.
End Str.

End Py.
Import Py.

(** ** Settings read at import time (lines 33-48) *)

Definition getenv (environ : gmap string string) (key : string) : option string :=
  environ !! key.

Definition missing_message (key : string) : string :=
  "Missing required environment variable '" ++ key
    ++ "'. Populate aws/agent_core/.env first.".

(** [if not value] holds for [None] and for the empty string. *)
Definition _require_env (environ : gmap string string) (key : string) : outcome string :=
  match getenv environ key with
  | None => Raise (RuntimeError (missing_message key))
  | Some "" => Raise (RuntimeError (missing_message key))
  | Some value => Return value
  end.

Record Settings : Type := {
  AWS_REGION : string;
  BEDROCK_MODEL_ID : string;
  APPLICATION_INSIGHTS_CONNECTION_STRING : option string;
  AGENT_NAME : string;
  AGENT_ID : string;
  PROVIDER_NAME : string;
}.

(** The module-level assignments, in the order the module runs them. *)
Definition load_settings (environ : gmap string string) : outcome Settings :=
  region ← _require_env environ "AWS_REGION";
  model ← _require_env environ "BEDROCK_MODEL_ID";
  let connection := getenv environ "APPLICATION_INSIGHTS_CONNECTION_STRING" in
  agent ← _require_env environ "AGENT_NAME";
  ident ← _require_env environ "AGENT_ID";
  provider ← _require_env environ "PROVIDER_NAME";
  Return {| AWS_REGION := region;
            BEDROCK_MODEL_ID := model;
            APPLICATION_INSIGHTS_CONNECTION_STRING := connection;
            AGENT_NAME := agent;
            AGENT_ID := ident;
            PROVIDER_NAME := provider |}.

Definition required_settings : list string :=
  ["AWS_REGION"; "BEDROCK_MODEL_ID"; "AGENT_NAME"; "AGENT_ID"; "PROVIDER_NAME"].

Definition SYSTEM_PROMPT : string :=
  "You help users understand currency exchange rates and related context.".

(** ** The exchange-rate tool (lines 51-67) *)

(** What [requests.get] is called with. *)
Record Request : Type := {
  req_method : string;
  req_url : string;
  req_params : gmap string string;
  req_timeout : option Z;
}.

(** A [requests.Response], as far as the tool uses it: the outcome of its
    two methods. *)
Record Response : Type := {
  raise_for_status : outcome unit;
  json : outcome value;
}.

(** The HTTP client: every request is answered with a response or an
    exception. *)
Abbreviation Http := (Request → outcome Response).

(** Classes of the [requests] package the tool can meet. [JSONDecodeError]
    derives from [RequestException] and from the standard library's
    JSON error, itself a [ValueError]. *)
Definition ConnectionError (msg : string) : exc :=
  Exc ["ConnectionError"; "RequestException"; "OSError"; "Exception"; "BaseException"]
    msg None.

Definition Timeout (msg : string) : exc :=
  Exc ["Timeout"; "RequestException"; "OSError"; "Exception"; "BaseException"]
    msg None.

Definition HTTPError (msg : string) : exc :=
  Exc ["HTTPError"; "RequestException"; "OSError"; "Exception"; "BaseException"]
    msg None.

Definition JSONDecodeError (msg : string) : exc :=
  Exc ["JSONDecodeError"; "InvalidJSONError"; "RequestException"; "OSError";
       "json.JSONDecodeError"; "ValueError"; "Exception"; "BaseException"]
    msg None.

(** The tool returns its result together with the requests it sent, in the
    order it sent them. *)
Definition get_exchange_rate (requests_get : Http)
    (currency_from currency_to currency_date : string)
    : outcome value * list Request :=
  let request :=
    {| req_method := "GET";
       req_url := "https://api.frankfurter.app/" ++ currency_date;
       req_params := {[ "base" := currency_from; "symbols" := currency_to ]};
       req_timeout := Some 10%Z |} in
  let guarded :=
    try_except
      (response ← requests_get request;
       _ ← raise_for_status response;
       Return response)
      "RequestException"
      (λ exc, Raise (ValueError "Failed to retrieve exchange rate data" (Some exc))) in
  (response ← guarded; json response, [request]).

(** ** Messages, tool calls and the conversation state *)

(** Modelled from the spec: the message classes of the chat framework are
    not part of the module; section 3 (Message, ToolCallRequest) gives
    their shape. *)
Inductive Role : Type := system | user | assistant | tool.

Record ToolCall : Type := {
  call_id : string;
  call_name : string;
  call_args : gmap string value;
}.

Record Message : Type := {
  role : Role;
  content : string;
  tool_calls : list ToolCall;
  tool_call_id : option string;
}.

(** What the chat model answers: always an assistant message, terminal when
    it requests no tool. *)
Record ModelReply : Type := {
  reply_content : string;
  reply_tool_calls : list ToolCall;
}.

Definition ai_message (reply : ModelReply) : Message :=
  {| role := assistant;
     content := reply_content reply;
     tool_calls := reply_tool_calls reply;
     tool_call_id := None |}.

Definition tool_message (call : ToolCall) (text : string) : Message :=
  {| role := tool;
     content := text;
     tool_calls := [];
     tool_call_id := Some (call_id call) |}.

(** ** The tracer and what it records *)

Record TracerArgs : Type := {
  connection_string : string;
  enable_content_recording : bool;
  name : string;
  agent_id : string;
  provider_name : string;
}.

Record Tracer : Type := { tracer_args : TracerArgs }.

Record RunnableConfig : Type := { callbacks : list Tracer }.

(** One telemetry record: the callback of a tracer at one node execution,
    with the messages the node saw and what it produced. *)
Record Span : Type := {
  span_tracer : Tracer;
  span_node : string;
  span_input : list Message;
  span_output : outcome (list Message);
}.

Inductive LogLevel : Type := INFO | WARNING.

(** ** The collaborators of one process *)

Record World : Type := {
  (** [requests.get] *)
  requests_get : Http;
  (** the Bedrock chat model for a region and a model identifier, bound to
      the tools of the given names *)
  chat_model : string → string → list string → list Message → outcome ModelReply;
  (** what it takes to have that model and the graph around it: creating
      the Bedrock client for the region (line 75) and the chat model for
      the model identifier (line 76), binding the tools of the given names
      (line 77) and compiling the graph (line 93); it returns when all of
      them do and raises what the first that fails raises *)
  bedrock_setup : string → string → list string → outcome unit;
  (** how a tool result becomes the content of its message *)
  serialize : value → string;
  (** the bound of the graph runtime on the node executions of one run *)
  recursion_limit : nat;
  (** the tracer class, [None] when its package cannot be imported *)
  AzureAIOpenTelemetryTracer : option (TracerArgs → outcome Tracer);
}.

(** ** The tool as the graph sees it *)

Record Tool : Type := {
  tool_name : string;
  tool_run : gmap string value → outcome value;
}.

Definition ValidationError (msg : string) : exc :=
  Exc ["ValidationError"; "ValueError"; "Exception"; "BaseException"] msg None.

(** A keyword argument of the tool call, with the default of the signature
    when the model left it out. *)
Definition str_arg (args : gmap string value) (key default_value : string)
    : outcome string :=
  match args !! key with
  | None => Return default_value
  | Some (VStr s) => Return s
  | Some _ => Raise (ValidationError ("Input should be a valid string: " ++ key))
  end.

(** [@tool] on [get_exchange_rate]: the function under its name, called
    with the arguments of a tool call. *)
Definition get_exchange_rate_tool (requests_get : Http) : Tool :=
  {| tool_name := "get_exchange_rate";
     tool_run := λ args,
       currency_from ← str_arg args "currency_from" "USD";
       currency_to ← str_arg args "currency_to" "EUR";
       currency_date ← str_arg args "currency_date" "latest";
       (get_exchange_rate requests_get currency_from currency_to currency_date).1 |}.

(** ** The graph runtime *)

Definition START : string := "__start__".
Definition END : string := "__end__".

Abbreviation Node := (list Message → outcome (list Message)).
Abbreviation Branch := (list Message → outcome string).

Record StateGraph : Type := {
  nodes : gmap string Node;
  edges : gmap string string;
  branches : gmap string Branch;
}.

Definition empty_graph : StateGraph :=
  {| nodes := ∅; edges := ∅; branches := ∅ |}.

Definition add_node (key : string) (action : Node) (g : StateGraph) : StateGraph :=
  {| nodes := <[key := action]> (nodes g);
     edges := edges g;
     branches := branches g |}.

Definition add_edge (start_key end_key : string) (g : StateGraph) : StateGraph :=
  {| nodes := nodes g;
     edges := <[start_key := end_key]> (edges g);
     branches := branches g |}.

Definition add_conditional_edges (source : string) (path : Branch) (g : StateGraph)
    : StateGraph :=
  {| nodes := nodes g;
     edges := edges g;
     branches := <[source := path]> (branches g) |}.

(** Modelled from the spec: the reducer of the [messages] channel is part of
    the graph framework; section 3 has the conversation state ordered and
    append-only. *)
Definition add_messages (left right : list Message) : list Message :=
  (left ++ right)%list.

(** Modelled from the spec: [tools_condition] is part of the graph
    framework; section 4.4 routes on the pending tool calls of the message
    the model returned. *)
Definition tools_condition (state : list Message) : outcome string :=
  match last state with
  | None =>
      Raise (ValueError "No messages found in input state to tool_edge" None)
  | Some ai =>
      match tool_calls ai with
      | [] => Return END
      | _ :: _ => Return "tools"
      end
  end.

(** Modelled from the spec: [ToolNode] is part of the graph framework;
    section 4.3 (ToolDispatcher) has one tool-result message per call, in
    the order of the calls, carrying the identifier of its call and the
    serialized result or the description of the failure, also for a tool
    name that is not registered. *)
Definition run_tool_call (serialize : value → string) (tools : list Tool)
    (call : ToolCall) : Message :=
  match find (λ t, bool_decide (tool_name t = call_name call)) tools with
  | None => tool_message call ("Error: unknown tool " ++ call_name call)
  | Some t =>
      match tool_run t (call_args call) with
      | Return result => tool_message call (serialize result)
      | Raise e => tool_message call ("Error: " ++ exc_str e)
      end
  end.

Definition ToolNode (serialize : value → string) (tools : list Tool) : Node :=
  λ state,
    match last state with
    | None => Raise (ValueError "No message found in input" None)
    | Some ai => Return (run_tool_call serialize tools <$> tool_calls ai)
    end.

Definition GraphRecursionError : exc :=
  Exc ["GraphRecursionError"; "RecursionError"; "RuntimeError"; "Exception";
       "BaseException"]
    "Recursion limit reached without hitting a stop condition" None.

(** Where the run goes after [node]: by its conditional edge if it has one,
    else along its edge, else to the end. *)
Definition next_node (g : StateGraph) (node : string) (state : list Message)
    : outcome string :=
  match branches g !! node with
  | Some path => path state
  | None => Return (default END (edges g !! node))
  end.

Definition spans_of (callbacks : list Tracer) (node : string)
    (input : list Message) (output : outcome (list Message)) : list Span :=
  (λ t, {| span_tracer := t; span_node := node;
           span_input := input; span_output := output |}) <$> callbacks.

(** Modelled from the spec: the executor of a compiled graph is part of the
    graph framework.  It runs one node at a time (section 5), appends what
    the node returns, reports the node execution to the callbacks
    (section 4.5) and follows the edges; [fuel] is what is left of the
    recursion limit. *)
Fixpoint run (g : StateGraph) (callbacks : list Tracer) (fuel : nat)
    (node : string) (state : list Message) : outcome (list Message) * list Span :=
  if decide (node = END) then (Return state, [])
  else
    match fuel with
    | O => (Raise GraphRecursionError, [])
    | S fuel' =>
        match nodes g !! node with
        | None => (Raise (ValueError ("Unknown node " ++ node) None), [])
        | Some action =>
            let output := action state in
            let spans := spans_of callbacks node state output in
            match output with
            | Raise e => (Raise e, spans)
            | Return update =>
                let state' := add_messages state update in
                match next_node g node state' with
                | Raise e => (Raise e, spans)
                | Return next =>
                    let rest := run g callbacks fuel' next state' in
                    (rest.1, (spans ++ rest.2)%list)
                end
            end
        end
    end.

(** ** The compiled graph: from and to the dictionaries of the caller *)

Abbreviation AgentState := (gmap string (list value)).
Abbreviation CompiledGraph :=
  (AgentState → option RunnableConfig → outcome AgentState * list Span).

Definition role_of_name (role_name : string) : option Role :=
  match role_name with
  | "system" => Some system
  | "user" | "human" => Some user
  | "assistant" | "ai" => Some assistant
  | "tool" => Some tool
  | _ => None
  end.

Definition class_of_role (r : Role) : string :=
  match r with
  | system => "SystemMessage"
  | user => "HumanMessage"
  | assistant => "AIMessage"
  | tool => "ToolMessage"
  end.

(** Modelled from the spec: the coercion of a [{"role": .., "content": ..}]
    dictionary to a message is part of the chat framework; section 3 has
    the role one of four and the content text. *)
Definition message_of_value (v : value) : outcome Message :=
  match v with
  | VDict d =>
      match d !! "role", d !! "content" with
      | Some (VStr role_name), Some (VStr text) =>
          match role_of_name role_name with
          | Some r =>
              Return {| role := r; content := text;
                        tool_calls := []; tool_call_id := None |}
          | None => Raise (ValueError ("Unexpected message type: " ++ role_name) None)
          end
      | _, _ => Raise (ValueError "Message dict must contain 'role' and 'content'" None)
      end
  | _ => Raise (ValueError "Unsupported message type" None)
  end.

Definition value_of_call (call : ToolCall) : value :=
  VDict {[ "id" := VStr (call_id call);
           "name" := VStr (call_name call);
           "args" := VDict (call_args call) ]}.

(** A message as the object the caller finds in the final state. *)
Definition value_of_message (m : Message) : value :=
  VObj (class_of_role (role m))
    {[ "content" := VStr (content m);
       "tool_calls" := VList (value_of_call <$> tool_calls m);
       "tool_call_id" := from_option VStr VNone (tool_call_id m) ]}.

(** The state a finished run hands back. *)
Definition final_state (final : list Message) : AgentState :=
  {[ "messages" := value_of_message <$> final ]}.

Definition compile (g : StateGraph) (limit : nat) : CompiledGraph :=
  λ input config,
    match mapM (M := outcome) message_of_value (default [] (input !! "messages")) with
    | Raise e => (Raise e, [])
    | Return seed =>
        let observers := from_option callbacks [] config in
        let result := run g observers limit (default END (edges g !! START)) seed in
        (final ← result.1; Return (final_state final), result.2)
    end.

(** ** Building the graph (lines 74-93) *)

Definition graph_builder (w : World) (cfg : Settings) : StateGraph :=
  let llm := chat_model w (AWS_REGION cfg) (BEDROCK_MODEL_ID cfg) in
  let llm_with_tools :=
    llm [tool_name (get_exchange_rate_tool (requests_get w))] in
  let call_model : Node := λ state,
    response ← llm_with_tools state;
    Return [ai_message response] in
  let tool_node :=
    ToolNode (serialize w) [get_exchange_rate_tool (requests_get w)] in
  add_edge START "assistant"
    (add_edge "tools" "assistant"
      (add_conditional_edges "assistant" tools_condition
        (add_node "tools" tool_node
          (add_node "assistant" call_model empty_graph)))).

(** The client, the model and the compiled graph are made when the module
    is imported; what any of these steps raises leaves [_build_langgraph]. *)
Definition _build_langgraph (w : World) (cfg : Settings) : outcome CompiledGraph :=
  _ ← bedrock_setup w (AWS_REGION cfg) (BEDROCK_MODEL_ID cfg)
        [tool_name (get_exchange_rate_tool (requests_get w))];
  Return (compile (graph_builder w cfg) (recursion_limit w)).

(** ** Reading the answer (lines 96-104) *)

Definition _last_message_content (py_repr : value → string) (messages : list value)
    : string :=
  match last messages with
  | None => ""
  | Some last_message =>
      match getattr last_message "content" with
      | Some text => str py_repr text
      | None =>
          match last_message with
          | VDict d => str py_repr (default (VStr "") (d !! "content"))
          | _ => str py_repr last_message
          end
      end
  end.

(** ** Wiring the tracer (lines 107-126) *)

Definition _create_graph_executor (w : World) (cfg : Settings)
    : outcome (CompiledGraph * option Tracer) * list (LogLevel * string) :=
  let traced : outcome (option Tracer) * list (LogLevel * string) :=
    match AzureAIOpenTelemetryTracer w with
    | None =>
        (Return None,
         [(WARNING, "langchain-azure-ai not installed; continuing without Azure Application Insights tracing.")])
    | Some construct =>
        match APPLICATION_INSIGHTS_CONNECTION_STRING cfg with
        | None | Some "" =>
            (Return None,
             [(INFO, "APPLICATION_INSIGHTS_CONNECTION_STRING not provided; Azure tracing disabled.")])
        | Some connection =>
            (tracer ← construct {| connection_string := connection;
                                   enable_content_recording := true;
                                   name := AGENT_NAME cfg;
                                   agent_id := AGENT_ID cfg;
                                   provider_name := PROVIDER_NAME cfg |};
             Return (Some tracer),
             [])
        end
    end in
  (tracer ← traced.1;
   graph ← _build_langgraph w cfg;
   Return (graph, tracer),
   traced.2).

(** ** The entry point (lines 129-154) *)

Definition _format_messages (user_message : value) : list value :=
  [ VDict {[ "role" := VStr "system"; "content" := VStr SYSTEM_PROMPT ]};
    VDict {[ "role" := VStr "user"; "content" := user_message ]} ].

(** [invoke] returns its dictionary or raises; the second component is the
    telemetry the run left behind. *)
Definition invoke (py_repr : value → string) (compiled_graph : CompiledGraph)
    (azure_tracer : option Tracer) (payload : gmap string value)
    : outcome (gmap string value) * list Span :=
  let user_message :=
    default (VStr "Hello! How can I help you today?") (payload !! "prompt") in
  let payload : AgentState := {[ "messages" := _format_messages user_message ]} in
  let ran :=
    match azure_tracer with
    | Some tracer => compiled_graph payload (Some {| callbacks := [tracer] |})
    | None => compiled_graph payload None
    end in
  let answer :=
    try_except
      (result_state ← ran.1;
       Return (_last_message_content py_repr (default [] (result_state !! "messages"))))
      "Exception"
      (λ exc, Return ("Error while processing request: " ++ exc_str exc)) in
  (answer ← answer; Return ({[ "result" := VStr answer ]} : gmap string value),
   ran.2).

(** ** The module as a whole: what importing it leaves behind *)

Record Loaded : Type := {
  settings : Settings;
  compiled_graph : CompiledGraph;
  azure_tracer : option Tracer;
}.

Definition import_module (w : World) (environ : gmap string string)
    : outcome Loaded * list (LogLevel * string) :=
  match load_settings environ with
  | Raise e => (Raise e, [])
  | Return cfg =>
      let created := _create_graph_executor w cfg in
      ('(graph, tracer) ← created.1;
       Return {| settings := cfg; compiled_graph := graph; azure_tracer := tracer |},
       created.2)
  end.

(** The entry point of a loaded module. *)
Definition entrypoint (py_repr : value → string) (m : Loaded)
    (payload : gmap string value) : outcome (gmap string value) * list Span :=
  invoke py_repr (compiled_graph m) (azure_tracer m) payload.

(** ** Vocabulary of the specification *)

(** One transition of the loop: the node runs, its messages are appended,
    and the edges name the node that follows. *)
Definition graph_step (g : StateGraph) (c : string * list Message)
    : outcome (string * list Message) :=
  match nodes g !! c.1 with
  | None => Raise (ValueError ("Unknown node " ++ c.1) None)
  | Some action =>
      update ← action c.2;
      let state' := add_messages c.2 update in
      next ← next_node g c.1 state';
      Return (next, state')
  end.

Definition step (g : StateGraph) (c c' : string * list Message) : Prop :=
  c.1 ≠ END ∧ graph_step g c = Return c'.

Fixpoint remove_first (x : string) (l : list string) : list string :=
  match l with
  | [] => []
  | y :: l' => if decide (x = y) then l' else y :: remove_first x l'
  end.

(** The identifiers of the tool calls of the latest assistant message that
    no later tool-result message has answered, given those that were
    [pending] before [state]. *)
Fixpoint outstanding (pending : list string) (state : list Message) : list string :=
  match state with
  | [] => pending
  | m :: rest =>
      match role m with
      | assistant => outstanding (call_id <$> tool_calls m) rest
      | tool =>
          outstanding
            (from_option (λ i, remove_first i pending) pending (tool_call_id m))
            rest
      | _ => outstanding pending rest
      end
  end.

(** What [invoke] makes of a finished run of the graph. *)
Definition respond (py_repr : value → string)
    (ran : outcome AgentState * list Span)
    : outcome (gmap string value) * list Span :=
  (match ran.1 with
   | Return result_state =>
       Return {[ "result" :=
         VStr (_last_message_content py_repr (default [] (result_state !! "messages"))) ]}
   | Raise e =>
       if isinstance e "Exception"
       then Return {[ "result" := VStr ("Error while processing request: " ++ exc_str e) ]}
       else Raise e
   end, ran.2).

(** The configuration [invoke] passes to the graph. *)
Definition config_of (azure_tracer : option Tracer) : option RunnableConfig :=
  (λ tracer, {| callbacks := [tracer] |}) <$> azure_tracer.

(** The model settles after [rounds] rounds of tool calls: from [state] it
    asks for tools [rounds] times, each time getting their results, and
    then answers without asking, which leaves [final]. *)
Inductive settles_within (llm : list Message → outcome ModelReply)
    (dispatch : ToolCall → Message) : nat → list Message → list Message → Prop :=
  | settles_now state reply :
      llm state = Return reply →
      reply_tool_calls reply = [] →
      settles_within llm dispatch 0 state (state ++ [ai_message reply])%list
  | settles_later rounds state reply final :
      llm state = Return reply →
      reply_tool_calls reply ≠ [] →
      settles_within llm dispatch rounds
        ((state ++ [ai_message reply]) ++ (dispatch <$> reply_tool_calls reply))%list
        final →
      settles_within llm dispatch (S rounds) state final.

(** ** Sample collaborators *)

Definition plain_repr (v : value) : string := "<object>".

Definition usd_eur : ToolCall :=
  {| call_id := "call_1";
     call_name := "get_exchange_rate";
     call_args := {[ "currency_from" := VStr "USD"; "currency_to" := VStr "EUR" ]} |}.

(** A model that asks for the rate once and answers when it has it. *)
Definition sample_model (state : list Message) : outcome ModelReply :=
  match last state with
  | Some {| role := tool |} =>
      Return {| reply_content := "1 USD is 0.92 EUR."; reply_tool_calls := [] |}
  | _ => Return {| reply_content := ""; reply_tool_calls := [usd_eur] |}
  end.

Definition sample_http (request : Request) : outcome Response :=
  Return {| raise_for_status := Return ();
            json := Return (VDict {[ "rates" := VDict {[ "EUR" := VStr "0.92" ]} ]}) |}.

(** A service that answers with a body that is not JSON. *)
Definition garbled_http (request : Request) : outcome Response :=
  Return {| raise_for_status := Return ();
            json := Raise (JSONDecodeError "Expecting value: line 1 column 1 (char 0)") |}.

(** A service that answers with a server error. *)
Definition failing_status_http (request : Request) : outcome Response :=
  Return {| raise_for_status :=
              Raise (HTTPError "500 Server Error: Internal Server Error");
            json := Return VNone |}.

(** A service that does not answer in time. *)
Definition timed_out_http (request : Request) : outcome Response :=
  Raise (Timeout "Read timed out. (read timeout=10)").

(** A service that cannot be reached. *)
Definition unreachable_http (request : Request) : outcome Response :=
  Raise (ConnectionError "Connection refused").

Definition sample_world : World :=
  {| requests_get := sample_http;
     chat_model := λ _ _ _, sample_model;
     bedrock_setup := λ _ _ _, Return ();
     serialize := plain_repr;
     recursion_limit := 25;
     AzureAIOpenTelemetryTracer := Some (λ args, Return {| tracer_args := args |}) |}.

Definition sample_environ : gmap string string :=
  {[ "AWS_REGION" := "us-east-1";
     "BEDROCK_MODEL_ID" := "anthropic.claude-3";
     "AGENT_NAME" := "currency-agent";
     "AGENT_ID" := "agent-1";
     "PROVIDER_NAME" := "aws" ]}.

Definition sample_settings : Settings :=
  {| AWS_REGION := "us-east-1";
     BEDROCK_MODEL_ID := "anthropic.claude-3";
     APPLICATION_INSIGHTS_CONNECTION_STRING := None;
     AGENT_NAME := "currency-agent";
     AGENT_ID := "agent-1";
     PROVIDER_NAME := "aws" |}.

Definition sample_tracer : Tracer :=
  {| tracer_args :=
       {| connection_string := "InstrumentationKey=0";
          enable_content_recording := true;
          name := "currency-agent";
          agent_id := "agent-1";
          provider_name := "aws" |} |}.

Definition traced_environ : gmap string string :=
  <[ "APPLICATION_INSIGHTS_CONNECTION_STRING" := "InstrumentationKey=0" ]> sample_environ.

Definition traced_settings : Settings :=
  {| AWS_REGION := "us-east-1";
     BEDROCK_MODEL_ID := "anthropic.claude-3";
     APPLICATION_INSIGHTS_CONNECTION_STRING := Some "InstrumentationKey=0";
     AGENT_NAME := "currency-agent";
     AGENT_ID := "agent-1";
     PROVIDER_NAME := "aws" |}.

Definition traced_module : Loaded :=
  {| settings := traced_settings;
     compiled_graph :=
       compile (graph_builder sample_world traced_settings)
         (recursion_limit sample_world);
     azure_tracer := Some sample_tracer |}.

Definition plain_module : Loaded :=
  {| settings := sample_settings;
     compiled_graph :=
       compile (graph_builder sample_world sample_settings)
         (recursion_limit sample_world);
     azure_tracer := None |}.

Definition sample_seed : list Message :=
  [ {| role := system; content := SYSTEM_PROMPT;
       tool_calls := []; tool_call_id := None |};
    {| role := user; content := "What is the USD to EUR rate today?";
       tool_calls := []; tool_call_id := None |} ].

Definition asks_rate : ModelReply :=
  {| reply_content := ""; reply_tool_calls := [usd_eur] |}.

Definition final_answer : ModelReply :=
  {| reply_content := "1 USD is 0.92 EUR."; reply_tool_calls := [] |}.

(** A graph whose run fails. *)
Definition failing_graph : CompiledGraph :=
  λ _ _, (Raise (RuntimeError "model unavailable"), []).

(** A graph whose run is interrupted from the keyboard. *)
Definition interrupted_graph : CompiledGraph :=
  λ _ _, (Raise KeyboardInterrupt, []).

(** A tracer class whose constructor rejects its connection string. *)
Definition rejecting_world : World :=
  {| requests_get := sample_http;
     chat_model := λ _ _ _, sample_model;
     bedrock_setup := λ _ _ _, Return ();
     serialize := plain_repr;
     recursion_limit := 25;
     AzureAIOpenTelemetryTracer :=
       Some (λ args, Raise (ValueError "Invalid connection string" None)) |}.

Definition InvalidRegionError (msg : string) : exc :=
  Exc ["InvalidRegionError"; "ValidationError"; "BotoCoreError"; "ValueError";
       "Exception"; "BaseException"]
    msg None.

(** A process whose Bedrock client refuses a region that is no host label. *)
Definition strict_region_world : World :=
  {| requests_get := sample_http;
     chat_model := λ _ _ _, sample_model;
     bedrock_setup := λ region _ _,
       if decide (region = " ")
       then Raise (InvalidRegionError "Provided region_name ' ' doesn't match a supported format.")
       else Return ();
     recursion_limit := 25;
     serialize := plain_repr;
     AzureAIOpenTelemetryTracer := None |}.

(** A process whose chat model cannot be reached. *)
Definition down_world : World :=
  {| requests_get := sample_http;
     chat_model := λ _ _ _ _, Raise (RuntimeError "model unavailable");
     bedrock_setup := λ _ _ _, Return ();
     serialize := plain_repr;
     recursion_limit := 25;
     AzureAIOpenTelemetryTracer := None |}.

(** A client interrupted from the keyboard while it waits. *)
Definition interrupted_http (request : Request) : outcome Response :=
  Raise KeyboardInterrupt.

(** * Properties *)

(** ** Settings *)

Lemma _require_env_cases (environ : gmap string string) (key : string) :
  (∃ v, environ !! key = Some v ∧ v ≠ "" ∧ _require_env environ key = Return v)
  ∨ ((environ !! key = None ∨ environ !! key = Some "")
     ∧ _require_env environ key = Raise (RuntimeError (missing_message key))).
Proof.
  unfold _require_env, getenv.
  destruct (environ !! key) as [[|a v]|] eqn:E.
  - right. eauto.
  - left. exists (String a v). eauto.
  - right. eauto.
Qed.


Ltac in_required :=
  unfold required_settings; repeat (first [apply list_elem_of_here | apply list_elem_of_further]).

Lemma load_settings_cases (environ : gmap string string) :
  (∃ cfg, load_settings environ = Return cfg
     ∧ (∀ key, key ∈ required_settings → ∃ v, environ !! key = Some v ∧ v ≠ "")
     ∧ APPLICATION_INSIGHTS_CONNECTION_STRING cfg
         = environ !! "APPLICATION_INSIGHTS_CONNECTION_STRING")
  ∨ (∃ missing, missing ∈ required_settings
       ∧ (environ !! missing = None ∨ environ !! missing = Some "")
       ∧ load_settings environ = Raise (RuntimeError (missing_message missing))).
Proof.
  unfold load_settings.
  destruct (_require_env_cases environ "AWS_REGION") as [(v1 & E1 & N1 & ->) | [A ->]];
    [| right; exists "AWS_REGION"; split_and!; [in_required | done | done]].
  destruct (_require_env_cases environ "BEDROCK_MODEL_ID") as [(v2 & E2 & N2 & ->) | [A ->]];
    [| right; exists "BEDROCK_MODEL_ID"; split_and!; [in_required | done | done]].
  destruct (_require_env_cases environ "AGENT_NAME") as [(v3 & E3 & N3 & ->) | [A ->]];
    [| right; exists "AGENT_NAME"; split_and!; [in_required | done | done]].
  destruct (_require_env_cases environ "AGENT_ID") as [(v4 & E4 & N4 & ->) | [A ->]];
    [| right; exists "AGENT_ID"; split_and!; [in_required | done | done]].
  destruct (_require_env_cases environ "PROVIDER_NAME") as [(v5 & E5 & N5 & ->) | [A ->]];
    [| right; exists "PROVIDER_NAME"; split_and!; [in_required | done | done]].
  left. eexists. split_and!; [reflexivity | | reflexivity].
  intros key Hin. unfold required_settings in Hin.
  repeat (apply elem_of_cons in Hin as [-> | Hin]); eauto.
  by apply elem_of_nil in Hin.
Qed.

Lemma _require_env_agree (environ environ' : gmap string string) (key : string) :
  environ' !! key = environ !! key →
  _require_env environ' key = _require_env environ key.
Proof. intros E. unfold _require_env, getenv. by rewrite E. Qed.

Lemma load_settings_agree (environ environ' : gmap string string) (cfg : Settings) :
  (∀ key, key ∈ required_settings → environ' !! key = environ !! key) →
  load_settings environ = Return cfg →
  ∃ cfg', load_settings environ' = Return cfg'
    ∧ AWS_REGION cfg' = AWS_REGION cfg
    ∧ BEDROCK_MODEL_ID cfg' = BEDROCK_MODEL_ID cfg.
Proof.
  intros Hagree. unfold load_settings.
  rewrite !(_require_env_agree environ environ') by (apply Hagree; in_required).
  destruct (_require_env environ "AWS_REGION"); [| done].
  destruct (_require_env environ "BEDROCK_MODEL_ID"); [| done].
  destruct (_require_env environ "AGENT_NAME"); [| done].
  destruct (_require_env environ "AGENT_ID"); [| done].
  destruct (_require_env environ "PROVIDER_NAME"); [| done].
  cbn [mbind outcome_bind mret outcome_ret]. intros [= <-]. eauto.
Qed.

Lemma _build_langgraph_returns (w : World) (cfg : Settings) (graph : CompiledGraph) :
  _build_langgraph w cfg = Return graph →
  graph = compile (graph_builder w cfg) (recursion_limit w).
Proof.
  unfold _build_langgraph. destruct (bedrock_setup w _ _ _); [| done].
  by intros [= <-].
Qed.

Lemma _build_langgraph_reads_region_and_model (w : World) (cfg cfg' : Settings) :
  AWS_REGION cfg' = AWS_REGION cfg →
  BEDROCK_MODEL_ID cfg' = BEDROCK_MODEL_ID cfg →
  _build_langgraph w cfg' = _build_langgraph w cfg.
Proof.
  intros E1 E2. unfold _build_langgraph, graph_builder. by rewrite E1, E2.
Qed.

Lemma executor_without_connection (w : World) (cfg : Settings) :
  APPLICATION_INSIGHTS_CONNECTION_STRING cfg = None →
  (_create_graph_executor w cfg).1
  = (graph ← _build_langgraph w cfg; Return (graph, None)).
Proof.
  intros E. unfold _create_graph_executor. rewrite E.
  by destruct (AzureAIOpenTelemetryTracer w).
Qed.

Lemma import_module_loaded (w : World) (environ : gmap string string) (m : Loaded) :
  (import_module w environ).1 = Return m →
  load_settings environ = Return (settings m)
  ∧ _build_langgraph w (settings m) = Return (compiled_graph m).
Proof.
  unfold import_module. destruct (load_settings environ) as [cfg|e]; [| done].
  cbn [fst]. unfold _create_graph_executor.
  destruct (_build_langgraph w cfg) as [graph|e] eqn:Hbuild;
    (destruct (AzureAIOpenTelemetryTracer w) as [construct|];
      [destruct (APPLICATION_INSIGHTS_CONNECTION_STRING cfg) as [[|a connection]|] |]);
    cbn [fst mbind outcome_bind mret outcome_ret];
    try (destruct (construct _) as [tracer|e'];
         cbn [mbind outcome_bind mret outcome_ret]);
    try done; by intros [= <-].
Qed.

(** C8. When a required setting (AWS_REGION, BEDROCK_MODEL_ID, AGENT_NAME,
    AGENT_ID, PROVIDER_NAME) is not set, importing the module raises the
    RuntimeError "Missing required environment variable '<name>'.
    Populate aws/agent_core/.env first." with the name of a required
    setting that is missing (the missing one, when it is the only one), so
    nothing is loaded.  The tracing connection string is optional: when
    the five are set and it is not, the import goes on to build the graph
    and loads the module, without a tracer, when the graph is built; and
    whenever the module loads with a connection string it loads without
    one. *)
Theorem required_settings_fail_fast (w : World) (environ : gmap string string) :
  (∀ key, key ∈ required_settings → environ !! key = None →
     ∃ missing, missing ∈ required_settings
       ∧ (environ !! missing = None ∨ environ !! missing = Some "")
       ∧ (import_module w environ).1
         = Raise (RuntimeError
                    ("Missing required environment variable '" ++ missing
                       ++ "'. Populate aws/agent_core/.env first.")))
  ∧ (∀ key, key ∈ required_settings → environ !! key = None →
       (∀ other, other ∈ required_settings → other ≠ key →
          ∃ v, environ !! other = Some v ∧ v ≠ "") →
       (import_module w environ).1
       = Raise (RuntimeError
                  ("Missing required environment variable '" ++ key
                     ++ "'. Populate aws/agent_core/.env first.")))
  ∧ ((∀ key, key ∈ required_settings → ∃ v, environ !! key = Some v ∧ v ≠ "") →
     environ !! "APPLICATION_INSIGHTS_CONNECTION_STRING" = None →
     ∃ cfg, load_settings environ = Return cfg
       ∧ APPLICATION_INSIGHTS_CONNECTION_STRING cfg = None
       ∧ (import_module w environ).1
         = (graph ← _build_langgraph w cfg;
            Return {| settings := cfg;
                      compiled_graph := graph;
                      azure_tracer := None |}))
  ∧ (∀ connection m,
       (import_module w
          (<[ "APPLICATION_INSIGHTS_CONNECTION_STRING" := connection ]> environ)).1
         = Return m →
       ∃ m',
         (import_module w
            (delete "APPLICATION_INSIGHTS_CONNECTION_STRING" environ)).1
           = Return m'
         ∧ azure_tracer m' = None).
Proof.
  split_and!.
  - unfold import_module.
    destruct (load_settings_cases environ)
      as [(cfg & -> & Hall & Hconn) | (missing & Hin & Habs & ->)].
    + intros key Hkey E. destruct (Hall key Hkey) as (v & E' & _). congruence.
    + intros key Hkey E. exists missing. done.
  - unfold import_module.
    destruct (load_settings_cases environ)
      as [(cfg & -> & Hall & Hconn) | (missing & Hin & Habs & ->)].
    + intros key Hkey E. destruct (Hall key Hkey) as (v & E' & _). congruence.
    + intros key Hkey E Hothers. cbn [fst].
      destruct (decide (missing = key)) as [-> | Hne]; [done |].
      destruct (Hothers missing Hin Hne) as (v & E' & Hv).
      destruct Habs as [A | A]; rewrite A in E'; by simplify_eq.
  - intros Hall E. unfold import_module.
    destruct (load_settings_cases environ)
      as [(cfg & -> & _ & Hconn) | (missing & Hin & Habs & ->)].
    + rewrite E in Hconn. exists cfg. split_and!; [done | done |].
      cbn [fst]. rewrite (executor_without_connection w cfg Hconn).
      by destruct (_build_langgraph w cfg).
    + destruct (Hall missing Hin) as (v & E' & Hv).
      destruct Habs as [A | A]; rewrite A in E'; by simplify_eq.
  - intros connection m Hm.
    apply import_module_loaded in Hm as [Hload Hgraph].
    assert (Hagree : ∀ key, key ∈ required_settings →
              delete "APPLICATION_INSIGHTS_CONNECTION_STRING" environ !! key
              = <[ "APPLICATION_INSIGHTS_CONNECTION_STRING" := connection ]> environ
                  !! key).
    { intros key Hin. unfold required_settings in Hin.
      repeat (apply elem_of_cons in Hin as [-> | Hin]);
        try (rewrite lookup_delete_ne by done; by rewrite lookup_insert_ne by done).
      by apply elem_of_nil in Hin. }
    destruct (load_settings_agree _ _ _ Hagree Hload)
      as (cfg' & Hload' & Eregion & Emodel).
    destruct (load_settings_cases
                (delete "APPLICATION_INSIGHTS_CONNECTION_STRING" environ))
      as [(cfg & Hl & _ & Hconn) | (missing & _ & _ & Hl)];
      rewrite Hload' in Hl; [injection Hl as <- | done].
    rewrite lookup_delete_eq in Hconn.
    unfold import_module. rewrite Hload'. cbn [fst].
    rewrite (executor_without_connection w cfg' Hconn).
    rewrite (_build_langgraph_reads_region_and_model w _ cfg' Eregion Emodel), Hgraph.
    cbn [mbind outcome_bind mret outcome_ret]. eauto.
Qed.

Lemma required_settings_fail_fast_witness :
  (import_module sample_world (delete "BEDROCK_MODEL_ID" sample_environ)).1
    = Raise (RuntimeError
               "Missing required environment variable 'BEDROCK_MODEL_ID'. Populate aws/agent_core/.env first.")
  ∧ (∃ cfg, load_settings sample_environ = Return cfg
       ∧ APPLICATION_INSIGHTS_CONNECTION_STRING cfg = None
       ∧ (import_module sample_world sample_environ).1
         = (graph ← _build_langgraph sample_world cfg;
            Return {| settings := cfg;
                      compiled_graph := graph;
                      azure_tracer := None |}))
  ∧ ∃ m',
      (import_module sample_world
         (delete "APPLICATION_INSIGHTS_CONNECTION_STRING" sample_environ)).1
        = Return m'
      ∧ azure_tracer m' = None.
Proof.
  destruct (required_settings_fail_fast sample_world
              (delete "BEDROCK_MODEL_ID" sample_environ)) as (_ & Hone & _ & _).
  destruct (required_settings_fail_fast sample_world sample_environ)
    as (_ & _ & Hoptional & Hwithout).
  split_and!.
  - apply (Hone "BEDROCK_MODEL_ID").
    + in_required.
    + by vm_compute.
    + intros other Hin Hne. unfold required_settings in Hin.
      repeat (apply elem_of_cons in Hin as [-> | Hin]);
        try done; try (eexists; split; [by vm_compute | done]).
      by apply elem_of_nil in Hin.
  - apply Hoptional.
    + intros key Hin. unfold required_settings in Hin.
      repeat (apply elem_of_cons in Hin as [-> | Hin]);
        try (eexists; split; [by vm_compute | done]).
      by apply elem_of_nil in Hin.
    + by vm_compute.
  - apply (Hwithout "InstrumentationKey=0" traced_module). reflexivity.
Defined.

(** ** The entry point *)

Lemma invoke_respond (py_repr : value → string) (compiled_graph : CompiledGraph)
    (azure_tracer : option Tracer) (payload : gmap string value) :
  invoke py_repr compiled_graph azure_tracer payload
  = respond py_repr
      (compiled_graph
         {[ "messages" :=
              _format_messages
                (default (VStr "Hello! How can I help you today?") (payload !! "prompt")) ]}
         (config_of azure_tracer)).
Proof.
  unfold invoke, respond, config_of, try_except.
  destruct azure_tracer as [tracer|]; simpl;
    match goal with |- context [?g ?st ?c] =>
      match type of (g st c) with
      | (outcome AgentState * list Span)%type => destruct (g st c) as [[st'|e] spans]
      end
    end; simpl; try reflexivity; by destruct (isinstance e "Exception").
Qed.

(** C1, as stated, fails: when the run of the graph is interrupted from the
    keyboard, which raises an exception that is no instance of [Exception],
    [invoke] returns no dictionary; the exception passes through it. *)
Lemma interrupt_passes_invoke :
  (invoke plain_repr interrupted_graph None ∅).1 = Raise KeyboardInterrupt
  ∧ ¬ ∃ answer,
        (invoke plain_repr interrupted_graph None ∅).1
        = Return {[ "result" := VStr answer ]}.
Proof. split; [reflexivity |]. by intros [answer E]. Qed.

(** C1, amended. For every payload: when the run of the graph returns,
    [invoke] returns the dictionary whose only field, [result], is the text
    of the last message; when the run raises an instance of [Exception],
    [invoke] returns the dictionary whose only field is "Error while
    processing request: " followed by the text of the exception; [invoke]
    raises only what the run raises that is no instance of [Exception]. *)
Theorem invoke_boundary (py_repr : value → string)
    (compiled_graph : CompiledGraph) (azure_tracer : option Tracer)
    (payload : gmap string value) :
  let ran :=
    compiled_graph
      {[ "messages" :=
           _format_messages
             (default (VStr "Hello! How can I help you today?") (payload !! "prompt")) ]}
      (config_of azure_tracer) in
  (∀ result_state,
     ran.1 = Return result_state →
     (invoke py_repr compiled_graph azure_tracer payload).1
     = Return {[ "result" :=
         VStr (_last_message_content py_repr
                 (default [] (result_state !! "messages"))) ]})
  ∧ (∀ e,
       ran.1 = Raise e →
       isinstance e "Exception" = true →
       (invoke py_repr compiled_graph azure_tracer payload).1
       = Return {[ "result" :=
           VStr ("Error while processing request: " ++ exc_str e) ]})
  ∧ (∀ e,
       ran.1 = Raise e →
       isinstance e "Exception" = false →
       (invoke py_repr compiled_graph azure_tracer payload).1 = Raise e).
Proof.
  intros ran. rewrite invoke_respond. fold ran. unfold respond. cbn [fst].
  split_and!.
  - by intros result_state ->.
  - by intros e -> ->.
  - by intros e -> ->.
Qed.

Lemma invoke_boundary_witness :
  (invoke plain_repr failing_graph None ∅).1
  = Return {[ "result" := VStr "Error while processing request: model unavailable" ]}.
Proof.
  apply (proj1 (proj2 (invoke_boundary plain_repr failing_graph None ∅))
           (RuntimeError "model unavailable"));
    reflexivity.
Defined.

Lemma convert_seed (user_message : string) :
  mapM (M := outcome) message_of_value (_format_messages (VStr user_message))
  = Return [ {| role := system; content := SYSTEM_PROMPT;
                tool_calls := []; tool_call_id := None |};
             {| role := user; content := user_message;
                tool_calls := []; tool_call_id := None |} ].
Proof. reflexivity. Qed.

Lemma entry_is_assistant (w : World) (cfg : Settings) :
  edges (graph_builder w cfg) !! START = Some "assistant".
Proof. reflexivity. Qed.

(** C6. For every user message string, [invoke] hands the graph a state
    whose messages are exactly two, in this order: the system message with
    the fixed persona prompt, then the user message with the supplied text;
    the loop of the compiled graph starts at its assistant node from these
    two messages. *)
Theorem conversation_is_seeded (py_repr : value → string)
    (compiled_graph : CompiledGraph) (azure_tracer : option Tracer)
    (payload : gmap string value) (user_message : string)
    (w : World) (cfg : Settings) (config : option RunnableConfig) :
  payload !! "prompt" = Some (VStr user_message) →
  let seeded : AgentState :=
    {[ "messages" :=
         [ VDict {[ "role" := VStr "system"; "content" := VStr SYSTEM_PROMPT ]};
           VDict {[ "role" := VStr "user"; "content" := VStr user_message ]} ] ]} in
  invoke py_repr compiled_graph azure_tracer payload
    = respond py_repr (compiled_graph seeded (config_of azure_tracer))
  ∧ ∀ graph,
      _build_langgraph w cfg = Return graph →
      graph seeded config
      = let result :=
          run (graph_builder w cfg) (from_option callbacks [] config)
            (recursion_limit w) "assistant"
            [ {| role := system; content := SYSTEM_PROMPT;
                 tool_calls := []; tool_call_id := None |};
              {| role := user; content := user_message;
                 tool_calls := []; tool_call_id := None |} ] in
        (final ← result.1; Return (final_state final), result.2).
Proof.
  intros E seeded. split.
  - rewrite invoke_respond, E. reflexivity.
  - intros graph Hbuild. apply _build_langgraph_returns in Hbuild as ->.
    unfold compile.
    replace (default [] (seeded !! "messages")) with (_format_messages (VStr user_message))
      by reflexivity.
    rewrite convert_seed, entry_is_assistant. reflexivity.
Qed.

Lemma conversation_is_seeded_witness :
  invoke plain_repr failing_graph None {[ "prompt" := VStr "Hello" ]}
  = respond plain_repr
      (failing_graph
         {[ "messages" :=
              [ VDict {[ "role" := VStr "system"; "content" := VStr SYSTEM_PROMPT ]};
                VDict {[ "role" := VStr "user"; "content" := VStr "Hello" ]} ] ]}
         None).
Proof.
  apply (conversation_is_seeded plain_repr failing_graph None
           {[ "prompt" := VStr "Hello" ]} "Hello" sample_world sample_settings None).
  reflexivity.
Defined.

(** C7. For a payload without a [prompt] field the user message handed to
    the graph is the fixed greeting; for a payload with one it is the value
    of the field. *)
Theorem default_greeting (py_repr : value → string)
    (compiled_graph : CompiledGraph) (azure_tracer : option Tracer)
    (payload : gmap string value) :
  (payload !! "prompt" = None →
   invoke py_repr compiled_graph azure_tracer payload
   = respond py_repr
       (compiled_graph
          {[ "messages" :=
               [ VDict {[ "role" := VStr "system"; "content" := VStr SYSTEM_PROMPT ]};
                 VDict {[ "role" := VStr "user";
                          "content" := VStr "Hello! How can I help you today?" ]} ] ]}
          (config_of azure_tracer)))
  ∧ (∀ prompt, payload !! "prompt" = Some prompt →
     invoke py_repr compiled_graph azure_tracer payload
     = respond py_repr
         (compiled_graph
            {[ "messages" :=
                 [ VDict {[ "role" := VStr "system"; "content" := VStr SYSTEM_PROMPT ]};
                   VDict {[ "role" := VStr "user"; "content" := prompt ]} ] ]}
            (config_of azure_tracer))).
Proof.
  split.
  - intros E. rewrite invoke_respond, E. reflexivity.
  - intros prompt E. rewrite invoke_respond, E. reflexivity.
Qed.

Lemma default_greeting_witness :
  invoke plain_repr failing_graph None ∅
  = respond plain_repr
      (failing_graph
         {[ "messages" :=
              [ VDict {[ "role" := VStr "system"; "content" := VStr SYSTEM_PROMPT ]};
                VDict {[ "role" := VStr "user";
                         "content" := VStr "Hello! How can I help you today?" ]} ] ]}
         None).
Proof.
  apply (proj1 (default_greeting plain_repr failing_graph None ∅)). reflexivity.
Defined.

(** ** Reading the answer *)

Lemma snoc_or_nil {A} (l : list A) : l = [] ∨ ∃ l' x, l = (l' ++ [x])%list.
Proof.
  induction l as [|x l IH] using rev_ind; [by left | right; eauto].
Qed.

(** C10. [_last_message_content] is defined on every list of messages: the
    empty list gives the empty string; a last element with a [content]
    attribute gives [str] of the attribute; a last element that is a dict
    gives [str] of its ["content"] entry, the empty string when it has
    none; any other last element gives [str] of itself; these cases cover
    every list.  So whenever the run of the graph returns, the [result]
    field of [invoke] is that string. *)
Theorem last_message_content_total (py_repr : value → string) :
  _last_message_content py_repr [] = ""
  ∧ (∀ messages last_message text,
       getattr last_message "content" = Some text →
       _last_message_content py_repr (messages ++ [last_message])%list
       = str py_repr text)
  ∧ (∀ messages d,
       _last_message_content py_repr (messages ++ [VDict d])%list
       = str py_repr (default (VStr "") (d !! "content")))
  ∧ (∀ messages d,
       d !! "content" = None →
       _last_message_content py_repr (messages ++ [VDict d])%list = "")
  ∧ (∀ messages last_message,
       getattr last_message "content" = None →
       (∀ d, last_message ≠ VDict d) →
       _last_message_content py_repr (messages ++ [last_message])%list
       = str py_repr last_message)
  ∧ (∀ messages : list value,
       messages = []
       ∨ ∃ front last_message, messages = (front ++ [last_message])%list
           ∧ ((∃ text, getattr last_message "content" = Some text)
              ∨ (∃ d, last_message = VDict d)
              ∨ (getattr last_message "content" = None
                 ∧ ∀ d, last_message ≠ VDict d)))
  ∧ (∀ (compiled_graph : CompiledGraph) azure_tracer payload result_state,
       (compiled_graph
          {[ "messages" :=
               _format_messages
                 (default (VStr "Hello! How can I help you today?")
                    (payload !! "prompt")) ]}
          (config_of azure_tracer)).1 = Return result_state →
       (invoke py_repr compiled_graph azure_tracer payload).1
       = Return {[ "result" :=
           VStr (_last_message_content py_repr
                   (default [] (result_state !! "messages"))) ]}).
Proof.
  split_and!.
  - reflexivity.
  - intros messages m text E. unfold _last_message_content.
    by rewrite last_snoc, E.
  - intros messages d. unfold _last_message_content.
    by rewrite last_snoc.
  - intros messages d E. unfold _last_message_content.
    by rewrite last_snoc, E.
  - intros messages m E Hd. unfold _last_message_content.
    rewrite last_snoc, E. destruct m; try done. by destruct (Hd d).
  - intros messages. destruct (snoc_or_nil messages) as [-> | (front & m & ->)];
      [by left | right].
    exists front, m. split; [done |].
    destruct (getattr m "content") as [text|] eqn:E; [left; eauto | right].
    destruct m; try (right; split; [done | by intros ?]).
    left; eauto.
  - intros G tr payload st E. rewrite invoke_respond. unfold respond.
    by rewrite E.
Qed.

Lemma last_message_content_total_witness :
  _last_message_content plain_repr
    ([VStr "earlier"] ++ [VObj "AIMessage" {[ "content" := VStr "1 USD is 0.92 EUR." ]}])%list
  = "1 USD is 0.92 EUR."
  ∧ _last_message_content plain_repr
      ([] ++ [VDict {[ "role" := VStr "user" ]}])%list = "".
Proof.
  split.
  - apply (proj1 (proj2 (last_message_content_total plain_repr))
             [VStr "earlier"]
             (VObj "AIMessage" {[ "content" := VStr "1 USD is 0.92 EUR." ]})
             (VStr "1 USD is 0.92 EUR.")).
    reflexivity.
  - apply (proj1 (proj2 (proj2 (proj2 (last_message_content_total plain_repr))))
             [] {[ "role" := VStr "user" ]}).
    by vm_compute.
Defined.

(** ** The exchange-rate tool *)

(** C4, as stated, fails: the request for USD to EUR does not carry the
    target currency under a query parameter named [target]. *)
Lemma target_parameter_counterexample :
  ¬ ∃ request,
      (get_exchange_rate sample_http "USD" "EUR" "latest").2 = [request]
      ∧ req_params request !! "base" = Some "USD"
      ∧ req_params request !! "target" = Some "EUR".
Proof.
  intros (request & E & _ & Htarget).
  injection E as <-. vm_compute in Htarget. discriminate.
Qed.

(** C4, amended. Each call of [get_exchange_rate] sends exactly one request:
    a GET to the rate service at the path given by the date, with the base
    currency under the query parameter [base], the target currency under
    the query parameter [symbols] and no other parameter, and a timeout of
    10; the result of the call depends on the HTTP client through its answer
    to this one request only. *)
Theorem one_rate_request (requests_get : Http)
    (currency_from currency_to currency_date : string) :
  ∃ request,
    (get_exchange_rate requests_get currency_from currency_to currency_date).2
      = [request]
    ∧ req_method request = "GET"
    ∧ req_url request = "https://api.frankfurter.app/" ++ currency_date
    ∧ req_params request !! "base" = Some currency_from
    ∧ req_params request !! "symbols" = Some currency_to
    ∧ dom (req_params request) = {[ "base"; "symbols" ]}
    ∧ req_timeout request = Some 10%Z
    ∧ ∀ other : Http,
        other request = requests_get request →
        get_exchange_rate other currency_from currency_to currency_date
        = get_exchange_rate requests_get currency_from currency_to currency_date.
Proof.
  eexists. split; [reflexivity |]. cbn [req_method req_url req_params req_timeout].
  split_and!; try reflexivity.
  intros other E. unfold get_exchange_rate. by rewrite E.
Qed.

Lemma one_rate_request_witness :
  get_exchange_rate (λ request, sample_http request) "USD" "EUR" "latest"
  = get_exchange_rate sample_http "USD" "EUR" "latest".
Proof.
  destruct (one_rate_request sample_http "USD" "EUR" "latest")
    as (request & _ & _ & _ & _ & _ & _ & _ & H).
  apply H. reflexivity.
Defined.

(** C2, as stated, fails: when the service answers with a body that is not
    JSON, the tool raises the decoding error of [response.json()] itself,
    not the failure it raises for the other errors. *)
Lemma malformed_body_counterexample :
  (get_exchange_rate garbled_http "USD" "EUR" "latest").1
    = Raise (JSONDecodeError "Expecting value: line 1 column 1 (char 0)")
  ∧ ¬ ∃ cause,
        (get_exchange_rate garbled_http "USD" "EUR" "latest").1
        = Raise (ValueError "Failed to retrieve exchange rate data" (Some cause)).
Proof.
  split; [reflexivity |]. intros (cause & E). vm_compute in E. discriminate.
Qed.

(** C2, amended. Every failure of the request —  an exception of the
    [requests] package raised by the GET (a network error, a timeout) or by
    the status check (a non-success HTTP status) — becomes one failure:
    the ValueError "Failed to retrieve exchange rate data" with the
    underlying exception as its cause. *)
Theorem request_failures_are_normalized (requests_get : Http)
    (currency_from currency_to currency_date : string) (e : exc) :
  let request :=
    {| req_method := "GET";
       req_url := "https://api.frankfurter.app/" ++ currency_date;
       req_params := {[ "base" := currency_from; "symbols" := currency_to ]};
       req_timeout := Some 10%Z |} in
  (requests_get request = Raise e
   ∨ ∃ response, requests_get request = Return response
                 ∧ raise_for_status response = Raise e) →
  isinstance e "RequestException" = true →
  (get_exchange_rate requests_get currency_from currency_to currency_date).1
  = Raise (ValueError "Failed to retrieve exchange rate data" (Some e)).
Proof.
  intros request Hfail Hcls. unfold get_exchange_rate. fold request. simpl.
  destruct Hfail as [-> | (response & -> & E)]; simpl.
  - unfold try_except. by rewrite Hcls.
  - rewrite E. simpl. unfold try_except. by rewrite Hcls.
Qed.

Lemma request_failures_are_normalized_witness :
  (get_exchange_rate unreachable_http "USD" "EUR" "latest").1
  = Raise (ValueError "Failed to retrieve exchange rate data"
             (Some (ConnectionError "Connection refused"))).
Proof.
  apply (request_failures_are_normalized unreachable_http "USD" "EUR" "latest"
           (ConnectionError "Connection refused")).
  - left. reflexivity.
  - reflexivity.
Defined.

(** ** Tool results and the calls they answer *)

Lemma outstanding_app (pending : list string) (front back : list Message) :
  outstanding pending (front ++ back)%list
  = outstanding (outstanding pending front) back.
Proof.
  revert pending. induction front as [|m front IH]; intros pending; [done |].
  cbn [app outstanding]. by destruct (role m).
Qed.

Lemma run_tool_call_answers (serialize : value → string) (tools : list Tool)
    (call : ToolCall) :
  ∃ text, run_tool_call serialize tools call = tool_message call text.
Proof.
  unfold run_tool_call.
  destruct (find _ tools) as [t|]; [| eauto].
  destruct (tool_run t (call_args call)); eauto.
Qed.

Lemma results_resolve_calls (serialize : value → string) (tools : list Tool)
    (calls : list ToolCall) :
  outstanding (call_id <$> calls) (run_tool_call serialize tools <$> calls) = [].
Proof.
  induction calls as [|call calls IH]; [done |].
  destruct (run_tool_call_answers serialize tools call) as [text E].
  cbn [fmap list_fmap outstanding]. rewrite E.
  cbn [role tool_message tool_call_id from_option remove_first].
  destruct (decide (call_id call = call_id call)); [| done].
  apply IH.
Qed.

Lemma results_carry_call_ids (serialize : value → string) (tools : list Tool)
    (calls : list ToolCall) :
  tool_call_id <$> (run_tool_call serialize tools <$> calls)
  = (λ call, Some (call_id call)) <$> calls.
Proof.
  rewrite <- list_fmap_compose. apply list_fmap_ext. intros _ call _.
  destruct (run_tool_call_answers serialize tools call) as [text E].
  cbn [compose]. by rewrite E.
Qed.

Lemma results_are_tool_messages (serialize : value → string) (tools : list Tool)
    (calls : list ToolCall) :
  Forall (λ m, role m = tool) (run_tool_call serialize tools <$> calls).
Proof.
  apply Forall_fmap, Forall_forall. intros call _.
  destruct (run_tool_call_answers serialize tools call) as [text E].
  cbn [compose]. by rewrite E.
Qed.

(** ** Callbacks only observe *)

Lemma run_ignores_callbacks (g : StateGraph) (callbacks : list Tracer)
    (fuel : nat) (node : string) (state : list Message) :
  (run g callbacks fuel node state).1 = (run g [] fuel node state).1
  ∧ (run g [] fuel node state).2 = [].
Proof.
  revert node state. induction fuel as [|fuel IH]; intros node state.
  - cbn [run]. by destruct (decide (node = END)).
  - cbn [run]. destruct (decide (node = END)); [done |].
    destruct (nodes g !! node) as [action|]; [| done].
    destruct (action state) as [update|e]; [| done].
    destruct (next_node g node (add_messages state update)) as [next|e]; [| done].
    cbn [fst snd]. destruct (IH next (add_messages state update)) as [-> ->].
    done.
Qed.

Lemma compile_ignores_callbacks (g : StateGraph) (limit : nat)
    (input : AgentState) (config : option RunnableConfig) :
  (compile g limit input config).1 = (compile g limit input None).1
  ∧ (compile g limit input None).2 = [].
Proof.
  unfold compile.
  destruct (mapM message_of_value (default [] (input !! "messages")))
    as [seed|e]; [| done].
  cbn [fst snd from_option].
  destruct (run_ignores_callbacks g (from_option callbacks [] config) limit
              (default END (edges g !! START)) seed) as [-> ->].
  done.
Qed.

(** ** The executor follows the transitions *)

Lemma run_step (g : StateGraph) (callbacks : list Tracer) (fuel : nat)
    (node : string) (state : list Message) :
  node ≠ END →
  (∃ e, graph_step g (node, state) = Raise e
        ∧ (run g callbacks (S fuel) node state).1 = Raise e
        ∧ ∀ span, span ∈ (run g callbacks (S fuel) node state).2 →
            span_node span = node ∧ span_input span = state)
  ∨ (∃ next state', graph_step g (node, state) = Return (next, state')
        ∧ (run g callbacks (S fuel) node state).1
          = (run g callbacks fuel next state').1
        ∧ ∀ span, span ∈ (run g callbacks (S fuel) node state).2 →
            (span_node span = node ∧ span_input span = state)
            ∨ span ∈ (run g callbacks fuel next state').2).
Proof.
  intros Hne. unfold graph_step. cbn [run fst snd].
  destruct (decide (node = END)); [done |].
  destruct (nodes g !! node) as [action|].
  - destruct (action state) as [update|e]; cbn [mbind outcome_bind].
    + destruct (next_node g node (add_messages state update)) as [next|e];
        cbn [mbind outcome_bind mret outcome_ret].
      * right. exists next, (add_messages state update).
        split_and!; [done | done |].
        intros span [Hin | Hin]%elem_of_app; [left | by right].
        unfold spans_of in Hin. apply list_elem_of_fmap in Hin as (t & -> & _).
        done.
      * left. exists e. split_and!; [done | done |].
        intros span Hin. unfold spans_of in Hin.
        apply list_elem_of_fmap in Hin as (t & -> & _). done.
    + left. exists e. split_and!; [done | done |].
      intros span Hin. unfold spans_of in Hin.
      apply list_elem_of_fmap in Hin as (t & -> & _). done.
  - left. eexists. split_and!; [done | done |].
    intros span Hin. by apply elem_of_nil in Hin.
Qed.

Lemma spans_are_reached (g : StateGraph) (callbacks : list Tracer) (fuel : nat)
    (node : string) (state : list Message) (span : Span) :
  span ∈ (run g callbacks fuel node state).2 →
  rtc (step g) (node, state) (span_node span, span_input span).
Proof.
  revert node state. induction fuel as [|fuel IH]; intros node state Hin.
  - cbn [run] in Hin. destruct (decide (node = END)); by apply elem_of_nil in Hin.
  - destruct (decide (node = END)) as [-> | Hne].
    { cbn [run] in Hin. destruct (decide (END = END)); [| done].
      by apply elem_of_nil in Hin. }
    destruct (run_step g callbacks fuel node state Hne)
      as [(e & _ & _ & Hspans) | (next & state' & Hstep & _ & Hspans)].
    + destruct (Hspans span Hin) as [-> ->]. apply rtc_refl.
    + destruct (Hspans span Hin) as [[-> ->] | Hrest]; [apply rtc_refl |].
      eapply rtc_l; [| by apply IH]. by split.
Qed.

Lemma run_follows_steps (g : StateGraph) (callbacks : list Tracer) (fuel : nat)
    (node : string) (state final : list Message) :
  (run g callbacks fuel node state).1 = Return final →
  rtc (step g) (node, state) (END, final).
Proof.
  revert node state. induction fuel as [|fuel IH]; intros node state Hrun.
  - cbn [run] in Hrun. destruct (decide (node = END)) as [-> |]; [| done].
    injection Hrun as <-. apply rtc_refl.
  - destruct (decide (node = END)) as [-> | Hne].
    { cbn [run] in Hrun. destruct (decide (END = END)); [| done].
      injection Hrun as <-. apply rtc_refl. }
    destruct (run_step g callbacks fuel node state Hne)
      as [(e & _ & Hr & _) | (next & state' & Hstep & Hr & _)].
    + congruence.
    + rewrite Hr in Hrun. eapply rtc_l; [| by apply IH]. by split.
Qed.

(** ** The agent loop *)

Section Loop.
Variable w : World.
Variable cfg : Settings.

Let g := graph_builder w cfg.
Let llm :=
  chat_model w (AWS_REGION cfg) (BEDROCK_MODEL_ID cfg) ["get_exchange_rate"].
Let dispatch :=
  run_tool_call (serialize w) [get_exchange_rate_tool (requests_get w)].

Lemma node_assistant :
  nodes g !! "assistant"
  = Some (λ state, response ← llm state; Return [ai_message response]).
Proof. reflexivity. Qed.

Lemma node_tools :
  nodes g !! "tools"
  = Some (ToolNode (serialize w) [get_exchange_rate_tool (requests_get w)]).
Proof. reflexivity. Qed.

Lemma node_known (node : string) :
  is_Some (nodes g !! node) → node = "assistant" ∨ node = "tools".
Proof.
  subst g. unfold graph_builder. cbn [nodes add_edge add_conditional_edges add_node empty_graph].
  intros [action E].
  destruct (decide (node = "tools")) as [-> | Ht]; [by right |].
  destruct (decide (node = "assistant")) as [-> | Ha]; [by left |].
  rewrite lookup_insert_ne, lookup_insert_ne, lookup_empty in E by done. done.
Qed.

Lemma next_after_assistant (state : list Message) :
  next_node g "assistant" state = tools_condition state.
Proof. reflexivity. Qed.

Lemma next_after_tools (state : list Message) :
  next_node g "tools" state = Return "assistant".
Proof. reflexivity. Qed.

Lemma run_unfold (callbacks : list Tracer) (fuel : nat) (node : string)
    (state : list Message) :
  node ≠ END →
  run g callbacks (S fuel) node state
  = match nodes g !! node with
    | None => (Raise (ValueError ("Unknown node " ++ node) None), [])
    | Some action =>
        match action state with
        | Raise e => (Raise e, spans_of callbacks node state (Raise e))
        | Return update =>
            match next_node g node (add_messages state update) with
            | Raise e => (Raise e, spans_of callbacks node state (Return update))
            | Return next =>
                let rest := run g callbacks fuel next (add_messages state update) in
                (rest.1, (spans_of callbacks node state (Return update) ++ rest.2)%list)
            end
        end
    end.
Proof.
  intros Hne. cbn [run]. destruct (decide (node = END)); [done |].
  destruct (nodes g !! node) as [action|]; [| done].
  by destruct (action state).
Qed.

Lemma run_end (callbacks : list Tracer) (fuel : nat) (state : list Message) :
  run g callbacks fuel END state = (Return state, []).
Proof. by destruct fuel. Qed.


Lemma assistant_turn (callbacks : list Tracer) (fuel : nat) (state : list Message) :
  run g callbacks (S fuel) "assistant" state
  = match llm state with
    | Raise e => (Raise e, spans_of callbacks "assistant" state (Raise e))
    | Return reply =>
        let spans :=
          spans_of callbacks "assistant" state (Return [ai_message reply]) in
        match reply_tool_calls reply with
        | [] => (Return (state ++ [ai_message reply])%list, spans)
        | _ :: _ =>
            let rest :=
              run g callbacks fuel "tools" (state ++ [ai_message reply])%list in
            (rest.1, (spans ++ rest.2)%list)
        end
    end.
Proof.
  rewrite run_unfold by done. rewrite node_assistant.
  destruct (llm state) as [reply|e]; [| reflexivity].
  cbn [mbind outcome_bind mret outcome_ret]. rewrite next_after_assistant.
  unfold tools_condition, add_messages. rewrite last_snoc.
  cbn [tool_calls ai_message].
  destruct (reply_tool_calls reply); [| reflexivity].
  cbn zeta. rewrite run_end. cbn [fst snd]. by rewrite app_nil_r.
Qed.

Lemma tool_turn (callbacks : list Tracer) (fuel : nat) (state : list Message)
    (ai : Message) :
  last state = Some ai →
  run g callbacks (S fuel) "tools" state
  = let results := dispatch <$> tool_calls ai in
    let rest := run g callbacks fuel "assistant" (state ++ results)%list in
    (rest.1, (spans_of callbacks "tools" state (Return results) ++ rest.2)%list).
Proof.
  intros E. rewrite run_unfold by done. rewrite node_tools.
  unfold ToolNode. rewrite E. by rewrite next_after_tools.
Qed.

Lemma tool_turn_empty (callbacks : list Tracer) (fuel : nat) :
  (run g callbacks (S fuel) "tools" []).1
  = Raise (ValueError "No message found in input" None).
Proof. by rewrite run_unfold by done. Qed.

Lemma answer_of_final (py_repr : value → string) (front : list Message)
    (reply : ModelReply) :
  _last_message_content py_repr
    (default [] (final_state (front ++ [ai_message reply]) !! "messages"))
  = reply_content reply.
Proof.
  unfold final_state. rewrite lookup_singleton_eq. cbn [default from_option id].
  rewrite fmap_app. cbn [fmap list_fmap]. unfold _last_message_content.
  by rewrite last_snoc.
Qed.

Lemma run_returns_from_assistant (callbacks : list Tracer) (fuel : nat)
    (node : string) (state final : list Message) :
  node ≠ END →
  (run g callbacks fuel node state).1 = Return final →
  ∃ front reply,
    final = (front ++ [ai_message reply])%list
    ∧ llm front = Return reply
    ∧ reply_tool_calls reply = [].
Proof.
  revert node state. induction fuel as [|fuel IH]; intros node state Hne Hrun.
  - cbn [run] in Hrun. by destruct (decide (node = END)).
  - destruct (nodes g !! node) as [action|] eqn:Hnode.
    + destruct (node_known node (mk_is_Some _ _ Hnode)) as [-> | ->].
      * rewrite assistant_turn in Hrun.
        destruct (llm state) as [reply|e] eqn:Hllm; [| done].
        cbn zeta in Hrun.
        destruct (reply_tool_calls reply) as [|call calls] eqn:Hcalls.
        -- cbn [fst] in Hrun. injection Hrun as <-. eauto.
        -- cbn [fst] in Hrun. by apply IH in Hrun.
      * destruct (last state) as [ai|] eqn:Hlast.
        -- rewrite (tool_turn _ _ _ _ Hlast) in Hrun. cbn zeta in Hrun.
           cbn [fst] in Hrun. by apply IH in Hrun.
        -- apply last_None in Hlast as ->. by rewrite tool_turn_empty in Hrun.
    + rewrite run_unfold in Hrun by done. by rewrite Hnode in Hrun.
Qed.

Lemma tools_step (state : list Message) (c : string * list Message) :
  step g ("tools", state) c →
  ∃ ai, last state = Some ai
      ∧ c = ("assistant", (state ++ (dispatch <$> tool_calls ai))%list).
Proof.
  intros [_ Hstep]. unfold graph_step in Hstep. cbn [fst snd] in Hstep.
  rewrite node_tools in Hstep. unfold ToolNode in Hstep.
  destruct (last state) as [ai|]; [| done].
  cbn [mbind outcome_bind] in Hstep. rewrite next_after_tools in Hstep.
  injection Hstep as <-. eauto.
Qed.

Lemma assistant_step (state : list Message) (c : string * list Message) :
  step g ("assistant", state) c →
  ∃ reply, llm state = Return reply
      ∧ c = (match reply_tool_calls reply with [] => END | _ :: _ => "tools" end,
             (state ++ [ai_message reply])%list).
Proof.
  intros [_ Hstep]. unfold graph_step in Hstep. cbn [fst snd] in Hstep.
  rewrite node_assistant in Hstep.
  destruct (llm state) as [reply|e]; [| done].
  cbn [mbind outcome_bind mret outcome_ret] in Hstep.
  rewrite next_after_assistant in Hstep. unfold tools_condition, add_messages in Hstep.
  rewrite last_snoc in Hstep. cbn [tool_calls ai_message] in Hstep.
  exists reply. split; [done |].
  by destruct (reply_tool_calls reply); injection Hstep as <-.
Qed.

Lemma run_returns_when_model_settles (callbacks : list Tracer) (rounds : nat)
    (state final : list Message) :
  settles_within llm dispatch rounds state final →
  ∀ fuel, (2 * rounds + 1 ≤ fuel)%nat →
  (run g callbacks fuel "assistant" state).1 = Return final.
Proof.
  induction 1 as [state reply Hllm Hcalls
                 | rounds state reply final Hllm Hcalls _ IH]; intros fuel Hfuel.
  - destruct fuel as [|fuel]; [lia |].
    rewrite assistant_turn, Hllm. cbn zeta. by rewrite Hcalls.
  - destruct fuel as [|[|fuel]]; [lia | lia |].
    rewrite assistant_turn, Hllm. cbn zeta.
    destruct (reply_tool_calls reply) as [|call calls] eqn:E; [done |].
    cbn [fst].
    rewrite (tool_turn _ _ _ (ai_message reply)) by apply last_snoc.
    cbn zeta. cbn [fst tool_calls ai_message]. rewrite E.
    apply IH. lia.
Qed.

(** C3. The loop of the graph is this state machine.  It starts at the
    assistant turn.  From the assistant turn, when the message of the model
    has no tool calls the run returns, and the answer read from the
    returned state is the content of that message, the last one; when it
    has tool calls the run goes on with the tool turn.  From the tool turn
    the run goes on with the assistant turn, whatever the tools did.  A run
    never returns from a tool turn: any state it returns ends with a
    message of the model without tool calls.  When the model settles after
    some rounds of tool calls, enough fuel makes the run return. *)
Theorem agent_loop_state_machine (py_repr : value → string)
    (callbacks : list Tracer) :
  edges g !! START = Some "assistant"
  ∧ (∀ fuel state reply,
       llm state = Return reply →
       reply_tool_calls reply = [] →
       (run g callbacks (S fuel) "assistant" state).1
         = Return (state ++ [ai_message reply])%list
       ∧ _last_message_content py_repr
           (default [] (final_state (state ++ [ai_message reply]) !! "messages"))
         = reply_content reply)
  ∧ (∀ fuel state reply,
       llm state = Return reply →
       reply_tool_calls reply ≠ [] →
       (run g callbacks (S fuel) "assistant" state).1
       = (run g callbacks fuel "tools" (state ++ [ai_message reply])%list).1)
  ∧ (∀ fuel state ai,
       last state = Some ai →
       (run g callbacks (S fuel) "tools" state).1
       = (run g callbacks fuel "assistant"
            (state ++ (dispatch <$> tool_calls ai))%list).1)
  ∧ (∀ state c, step g ("tools", state) c → c.1 = "assistant")
  ∧ (∀ fuel node state final,
       node ≠ END →
       (run g callbacks fuel node state).1 = Return final →
       ∃ front reply,
         final = (front ++ [ai_message reply])%list
         ∧ llm front = Return reply
         ∧ reply_tool_calls reply = [])
  ∧ (∀ rounds state final,
       settles_within llm dispatch rounds state final →
       ∀ fuel, (2 * rounds + 1 ≤ fuel)%nat →
       (run g callbacks fuel "assistant" state).1 = Return final).
Proof.
  split_and!.
  - reflexivity.
  - intros fuel state reply Hllm Hcalls. split; [| apply answer_of_final].
    rewrite assistant_turn, Hllm. cbn zeta. by rewrite Hcalls.
  - intros fuel state reply Hllm Hcalls.
    rewrite assistant_turn, Hllm. cbn zeta.
    by destruct (reply_tool_calls reply).
  - intros fuel state ai Hlast. by rewrite (tool_turn _ _ _ _ Hlast).
  - intros state c Hstep. by destruct (tools_step _ _ Hstep) as (ai & _ & ->).
  - apply run_returns_from_assistant.
  - apply run_returns_when_model_settles.
Qed.

Lemma loop_invariant (seed : list Message) (c : string * list Message) :
  outstanding [] seed = [] →
  rtc (step g) ("assistant", seed) c →
  (c.1 = "assistant" ∧ outstanding [] c.2 = [])
  ∨ (c.1 = "tools" ∧ ∃ front reply, c.2 = (front ++ [ai_message reply])%list)
  ∨ c.1 = END.
Proof.
  intros Hseed. revert c.
  apply (rtc_ind_r
    (λ c, (c.1 = "assistant" ∧ outstanding [] c.2 = [])
          ∨ (c.1 = "tools" ∧ ∃ front reply, c.2 = (front ++ [ai_message reply])%list)
          ∨ c.1 = END)).
  - by left.
  - intros c c' _ Hstep IH.
    destruct c as [node state]. cbn [fst snd] in IH.
    destruct IH as [[-> Hout] | [[-> (front & reply & ->)] | ->]].
    + destruct (assistant_step _ _ Hstep) as (reply & _ & ->).
      destruct (reply_tool_calls reply); [by right; right |].
      right; left. cbn [fst snd]. eauto.
    + destruct (tools_step _ _ Hstep) as (ai & Hlast & ->).
      rewrite last_snoc in Hlast. injection Hlast as <-.
      left. cbn [fst snd]. split; [done |].
      rewrite !outstanding_app. cbn [outstanding role ai_message tool_calls].
      apply results_resolve_calls.
    + by destruct Hstep as [Hne _].
Qed.

(** C5. In every run of the loop: a tool turn appends exactly as many
    tool-result messages as the last assistant message has tool calls, and
    their [tool_call_id]s are the identifiers of those calls, one for one
    and in the same order; and when the conversation starts with no tool
    call unanswered, every assistant turn of the run, as the transitions
    reach it and as the executor performs it, starts from a state in which
    no tool call of the latest assistant message is unanswered. *)
Theorem tool_results_match_calls :
  (∀ state ai c,
     last state = Some ai →
     step g ("tools", state) c →
     ∃ results,
       c = ("assistant", (state ++ results)%list)
       ∧ length results = length (tool_calls ai)
       ∧ tool_call_id <$> results = (λ call, Some (call_id call)) <$> tool_calls ai
       ∧ Forall (λ m, role m = tool) results)
  ∧ (∀ seed c,
       outstanding [] seed = [] →
       rtc (step g) ("assistant", seed) c →
       c.1 = "assistant" →
       outstanding [] c.2 = [])
  ∧ (∀ callbacks fuel seed span,
       outstanding [] seed = [] →
       span ∈ (run g callbacks fuel "assistant" seed).2 →
       span_node span = "assistant" →
       outstanding [] (span_input span) = []).
Proof.
  split_and!.
  - intros state ai c Hlast Hstep.
    destruct (tools_step _ _ Hstep) as (ai' & Hlast' & ->).
    rewrite Hlast in Hlast'. injection Hlast' as <-.
    exists (dispatch <$> tool_calls ai). split_and!.
    + done.
    + by rewrite length_fmap.
    + apply results_carry_call_ids.
    + apply results_are_tool_messages.
  - intros seed c Hseed Hrtc Hnode.
    destruct (loop_invariant seed c Hseed Hrtc)
      as [[_ Hout] | [[Hn _] | Hn]]; [done | |]; rewrite Hnode in Hn; done.
  - intros callbacks fuel seed span Hseed Hin Hnode.
    apply spans_are_reached in Hin.
    destruct (loop_invariant seed _ Hseed Hin)
      as [[_ Hout] | [[Hn _] | Hn]]; [done | |];
      cbn [fst] in Hn; rewrite Hnode in Hn; done.
Qed.

End Loop.

(** ** Tracing *)

(** C9, as stated, fails: with the connection string set and a tracer
    class whose constructor raises, the failure of the tracer to
    initialize is not logged and the module does not load. *)
Lemma tracer_failure_counterexample :
  import_module rejecting_world traced_environ
    = (Raise (ValueError "Invalid connection string" None), [])
  ∧ ¬ ∃ m, (import_module rejecting_world traced_environ).1 = Return m.
Proof. split; [reflexivity |]. by intros [m E]. Qed.

Lemma compiled_graph_agree (w w' : World) (cfg cfg' : Settings) :
  requests_get w' = requests_get w →
  chat_model w' = chat_model w →
  serialize w' = serialize w →
  recursion_limit w' = recursion_limit w →
  AWS_REGION cfg' = AWS_REGION cfg →
  BEDROCK_MODEL_ID cfg' = BEDROCK_MODEL_ID cfg →
  compile (graph_builder w' cfg') (recursion_limit w')
  = compile (graph_builder w cfg) (recursion_limit w).
Proof.
  intros E1 E2 E3 E4 E5 E6. unfold graph_builder.
  by rewrite E1, E2, E3, E4, E5, E6.
Qed.

(** C9, amended. Take two loaded modules whose model, HTTP client and
    required settings are the same, the second one without a tracer.  For
    every payload [invoke] returns the same result in both, and in the
    second one it leaves no telemetry.  When the tracing package cannot be
    imported a warning is logged, when the connection string is not set or
    empty a notice is logged, and in both cases the executor goes on to
    build the graph and, when the graph is built, is created without a
    tracer. *)
Theorem tracing_is_transparent (py_repr : value → string) (w w' : World)
    (environ environ' : gmap string string) (m m' : Loaded)
    (cfg : Settings) (payload : gmap string value) :
  (requests_get w' = requests_get w →
   chat_model w' = chat_model w →
   serialize w' = serialize w →
   recursion_limit w' = recursion_limit w →
   (∀ key, key ∈ required_settings → environ' !! key = environ !! key) →
   (import_module w environ).1 = Return m →
   (import_module w' environ').1 = Return m' →
   azure_tracer m' = None →
   (entrypoint py_repr m' payload).1 = (entrypoint py_repr m payload).1
   ∧ (entrypoint py_repr m' payload).2 = [])
  ∧ (AzureAIOpenTelemetryTracer w = None →
     _create_graph_executor w cfg
     = (graph ← _build_langgraph w cfg; Return (graph, None),
        [(WARNING, "langchain-azure-ai not installed; continuing without Azure Application Insights tracing.")]))
  ∧ (is_Some (AzureAIOpenTelemetryTracer w) →
     APPLICATION_INSIGHTS_CONNECTION_STRING cfg = None
     ∨ APPLICATION_INSIGHTS_CONNECTION_STRING cfg = Some "" →
     _create_graph_executor w cfg
     = (graph ← _build_langgraph w cfg; Return (graph, None),
        [(INFO, "APPLICATION_INSIGHTS_CONNECTION_STRING not provided; Azure tracing disabled.")])).
Proof.
  split_and!.
  - intros E1 E2 E3 E4 Hagree Hm Hm' Hoff.
    apply import_module_loaded in Hm as [Hcfg Hgraph].
    apply import_module_loaded in Hm' as [Hcfg' Hgraph'].
    apply _build_langgraph_returns in Hgraph, Hgraph'.
    destruct (load_settings_agree environ environ' _ Hagree Hcfg)
      as (cfg' & Hload & E5 & E6).
    rewrite Hcfg' in Hload. injection Hload as <-.
    unfold entrypoint. rewrite Hgraph, Hgraph', Hoff.
    rewrite (compiled_graph_agree w w' _ _ E1 E2 E3 E4 E5 E6).
    rewrite !invoke_respond. unfold respond.
    cbn [fst snd config_of fmap option_fmap option_map].
    match goal with |- context [compile ?g ?l ?i (config_of (azure_tracer m))] =>
      destruct (compile_ignores_callbacks g l i (config_of (azure_tracer m))) as [-> ->]
    end.
    done.
  - intros E. unfold _create_graph_executor. by rewrite E.
  - intros [construct E] Hconn. unfold _create_graph_executor. rewrite E.
    by destruct Hconn as [-> | ->].
Qed.

(** ** The properties at the sample collaborators *)

Lemma agent_loop_state_machine_witness :
  (run (graph_builder sample_world sample_settings) [] 1 "assistant"
     [tool_message usd_eur "0.92"]).1
  = Return ([tool_message usd_eur "0.92"] ++ [ai_message final_answer])%list.
Proof.
  apply (proj1 (proj2 (agent_loop_state_machine sample_world sample_settings plain_repr []))
           0 [tool_message usd_eur "0.92"] final_answer);
    reflexivity.
Defined.

Lemma tool_results_match_calls_witness :
  ∃ results,
    ("assistant", [ai_message asks_rate; tool_message usd_eur "<object>"])
      = ("assistant", ([ai_message asks_rate] ++ results)%list)
    ∧ length results = length (tool_calls (ai_message asks_rate))
    ∧ tool_call_id <$> results
      = (λ call, Some (call_id call)) <$> tool_calls (ai_message asks_rate)
    ∧ Forall (λ m, role m = tool) results.
Proof.
  apply (proj1 (tool_results_match_calls sample_world sample_settings)
           [ai_message asks_rate] (ai_message asks_rate)
           ("assistant", [ai_message asks_rate; tool_message usd_eur "<object>"])).
  - reflexivity.
  - split; [done | reflexivity].
Defined.

Lemma tracing_is_transparent_witness :
  (entrypoint plain_repr plain_module ∅).1
    = (entrypoint plain_repr traced_module ∅).1
  ∧ (entrypoint plain_repr plain_module ∅).2 = [].
Proof.
  apply (proj1 (tracing_is_transparent plain_repr sample_world sample_world
                  traced_environ sample_environ traced_module plain_module
                  sample_settings ∅));
    try reflexivity.
  intros key Hin. unfold required_settings in Hin.
  repeat (apply elem_of_cons in Hin as [-> | Hin]); try by vm_compute.
  by apply elem_of_nil in Hin.
Defined.

(** Scenario A of the specification: the model asks for the rate, the tool
    answers, the model gives its answer; five messages, and the answer of
    the last one is the result. *)
Example scenario_tool_call :
  (run (graph_builder sample_world sample_settings) [] 25 "assistant" sample_seed).1
  = Return (sample_seed
            ++ [ai_message asks_rate; tool_message usd_eur "<object>";
                ai_message final_answer])%list
  ∧ (graph ← _build_langgraph sample_world sample_settings;
     (invoke plain_repr graph None
        {[ "prompt" := VStr "What is the USD to EUR rate today?" ]}).1)
    = Return {[ "result" := VStr "1 USD is 0.92 EUR." ]}.
Proof. split; reflexivity. Qed.

(** Scenario B: the model answers at once; three messages. *)
Example scenario_direct_answer :
  (run
     (graph_builder
        {| requests_get := sample_http;
           chat_model := λ _ _ _ _, Return final_answer;
           bedrock_setup := λ _ _ _, Return ();
           serialize := plain_repr;
           recursion_limit := 25;
           AzureAIOpenTelemetryTracer := None |}
        sample_settings)
     [] 25 "assistant" sample_seed).1
  = Return (sample_seed ++ [ai_message final_answer])%list.
Proof. reflexivity. Qed.

(** Scenario C: the rate service times out; the tool-result message says
    so, the loop goes on and the model still gives an answer. *)
Example scenario_tool_failure :
  (run
     (graph_builder
        {| requests_get := timed_out_http;
           chat_model := λ _ _ _, sample_model;
           bedrock_setup := λ _ _ _, Return ();
           serialize := plain_repr;
           recursion_limit := 25;
           AzureAIOpenTelemetryTracer := None |}
        sample_settings)
     [] 25 "assistant" sample_seed).1
  = Return (sample_seed
            ++ [ai_message asks_rate;
                tool_message usd_eur "Error: Failed to retrieve exchange rate data";
                ai_message final_answer])%list.
Proof. reflexivity. Qed.

(** A server error is normalized like a network error, with its cause. *)
Example scenario_server_error :
  (get_exchange_rate failing_status_http "USD" "EUR" "latest").1
  = Raise (ValueError "Failed to retrieve exchange rate data"
             (Some (HTTPError "500 Server Error: Internal Server Error")))
  ∧ (exc_cause <$>
       match (get_exchange_rate failing_status_http "USD" "EUR" "latest").1 with
       | Raise e => Some e
       | Return _ => None
       end)
    = Some (Some (HTTPError "500 Server Error: Internal Server Error")).
Proof. split; reflexivity. Qed.

(** With a tracer, the same run leaves one record per node execution. *)
Example scenario_traced :
  (graph ← _build_langgraph sample_world sample_settings;
   Return
     (span_node <$>
        (invoke plain_repr graph (Some sample_tracer)
           {[ "prompt" := VStr "What is the USD to EUR rate today?" ]}).2))
  = Return ["assistant"; "tools"; "assistant"].
Proof. reflexivity. Qed.

(** A region the Bedrock client refuses: the five settings are there, and
    the import fails all the same, after the warning about tracing. *)
Example scenario_invalid_region :
  import_module strict_region_world (<[ "AWS_REGION" := " " ]> sample_environ)
  = (Raise (InvalidRegionError
              "Provided region_name ' ' doesn't match a supported format."),
     [(WARNING, "langchain-azure-ai not installed; continuing without Azure Application Insights tracing.")]).
Proof. reflexivity. Qed.

(** A model that never stops asking runs into the recursion limit, and the
    entry point reports it. *)
Example scenario_recursion_limit :
  (invoke plain_repr
     (compile
        (graph_builder
           {| requests_get := sample_http;
              chat_model := λ _ _ _ _, Return asks_rate;
              bedrock_setup := λ _ _ _, Return ();
              serialize := plain_repr;
              recursion_limit := 4;
              AzureAIOpenTelemetryTracer := None |}
           sample_settings) 4)
     None ∅).1
  = Return {[ "result" :=
      VStr "Error while processing request: Recursion limit reached without hitting a stop condition" ]}.
Proof. reflexivity. Qed.


(** * Further properties of the module *)

(** ** Settings *)

Lemma _require_env_present (environ : gmap string string) (key v : string) :
  environ !! key = Some v → v ≠ "" → _require_env environ key = Return v.
Proof.
  intros E Hv. unfold _require_env, getenv. rewrite E.
  destruct v; [done | reflexivity].
Qed.


(** X1. [_require_env] returns a value exactly when the variable is set to
    a string that is not empty, and then it returns that string unchanged;
    a variable set to the empty string counts as missing. *)
Theorem _require_env_returns_iff (environ : gmap string string) (key v : string) :
  _require_env environ key = Return v ↔ environ !! key = Some v ∧ v ≠ "".
Proof.
  split.
  - destruct (_require_env_cases environ key) as [(v' & E & Hv & ->) | [_ ->]];
      [| done].
    by intros [= <-].
  - intros [E Hv]. by apply _require_env_present.
Qed.



(** X3. When the settings load, each required setting is the value of its
    variable, which is not empty, and the connection string is whatever
    the environment has for it, also when that is nothing or the empty
    string. *)
Theorem load_settings_reads_environ (environ : gmap string string) (cfg : Settings) :
  load_settings environ = Return cfg →
  (environ !! "AWS_REGION" = Some (AWS_REGION cfg) ∧ AWS_REGION cfg ≠ "")
  ∧ (environ !! "BEDROCK_MODEL_ID" = Some (BEDROCK_MODEL_ID cfg)
     ∧ BEDROCK_MODEL_ID cfg ≠ "")
  ∧ (environ !! "AGENT_NAME" = Some (AGENT_NAME cfg) ∧ AGENT_NAME cfg ≠ "")
  ∧ (environ !! "AGENT_ID" = Some (AGENT_ID cfg) ∧ AGENT_ID cfg ≠ "")
  ∧ (environ !! "PROVIDER_NAME" = Some (PROVIDER_NAME cfg) ∧ PROVIDER_NAME cfg ≠ "")
  ∧ APPLICATION_INSIGHTS_CONNECTION_STRING cfg
    = environ !! "APPLICATION_INSIGHTS_CONNECTION_STRING".
Proof.
  unfold load_settings.
  destruct (_require_env_cases environ "AWS_REGION")
    as [(v1 & E1 & N1 & ->) | [_ ->]]; [| done].
  destruct (_require_env_cases environ "BEDROCK_MODEL_ID")
    as [(v2 & E2 & N2 & ->) | [_ ->]]; [| done].
  destruct (_require_env_cases environ "AGENT_NAME")
    as [(v3 & E3 & N3 & ->) | [_ ->]]; [| done].
  destruct (_require_env_cases environ "AGENT_ID")
    as [(v4 & E4 & N4 & ->) | [_ ->]]; [| done].
  destruct (_require_env_cases environ "PROVIDER_NAME")
    as [(v5 & E5 & N5 & ->) | [_ ->]]; [| done].
  cbn [mbind outcome_bind mret outcome_ret]. by intros [= <-].
Qed.

Lemma load_settings_reads_environ_witness :
  traced_environ !! "APPLICATION_INSIGHTS_CONNECTION_STRING"
  = Some "InstrumentationKey=0"
  ∧ traced_environ !! "AGENT_ID" = Some "agent-1".
Proof.
  destruct (load_settings_reads_environ traced_environ traced_settings)
    as (_ & _ & _ & [H4 _] & _ & H6); [reflexivity |].
  split; [by rewrite <- H6 | exact H4].
Defined.

(** X4. Only six variables of the environment matter: two environments
    that agree on the five required settings and on the connection string
    load the same settings or fail with the same error. *)
Theorem load_settings_reads_six_variables (environ environ' : gmap string string) :
  (∀ key, key ∈ required_settings → environ' !! key = environ !! key) →
  environ' !! "APPLICATION_INSIGHTS_CONNECTION_STRING"
    = environ !! "APPLICATION_INSIGHTS_CONNECTION_STRING" →
  load_settings environ' = load_settings environ.
Proof.
  intros Hagree Hconn. unfold load_settings.
  rewrite !(_require_env_agree environ environ') by (apply Hagree; in_required).
  unfold getenv. by rewrite Hconn.
Qed.

Lemma load_settings_reads_six_variables_witness :
  load_settings (<[ "HOME" := "/root" ]> sample_environ)
  = load_settings sample_environ.
Proof.
  apply load_settings_reads_six_variables.
  - intros key Hin. unfold required_settings in Hin.
    repeat (apply elem_of_cons in Hin as [-> | Hin]); try by vm_compute.
    by apply elem_of_nil in Hin.
  - by vm_compute.
Defined.

(** ** The exchange-rate tool *)

(** X5. When the request is answered and the status check passes, the tool
    hands back what [response.json()] gives, as it is: the decoded body
    when there is one, the exception of the decoder otherwise. *)
Theorem get_exchange_rate_returns_body (requests_get : Http)
    (currency_from currency_to currency_date : string) (response : Response) :
  requests_get
    {| req_method := "GET";
       req_url := "https://api.frankfurter.app/" ++ currency_date;
       req_params := {[ "base" := currency_from; "symbols" := currency_to ]};
       req_timeout := Some 10%Z |} = Return response →
  raise_for_status response = Return () →
  (get_exchange_rate requests_get currency_from currency_to currency_date).1
  = json response.
Proof.
  intros Hget Hstatus. unfold get_exchange_rate. cbn [fst].
  rewrite Hget. cbn [mbind outcome_bind]. rewrite Hstatus. reflexivity.
Qed.

Lemma get_exchange_rate_returns_body_witness :
  (get_exchange_rate sample_http "USD" "EUR" "latest").1
  = Return (VDict {[ "rates" := VDict {[ "EUR" := VStr "0.92" ]} ]}).
Proof.
  apply (get_exchange_rate_returns_body sample_http "USD" "EUR" "latest"
           {| raise_for_status := Return ();
              json := Return (VDict {[ "rates" := VDict {[ "EUR" := VStr "0.92" ]} ]}) |});
    reflexivity.
Defined.

(** X6. The tool wraps the exceptions of the [requests] package only: any
    other exception raised by the GET or by the status check leaves the
    tool unchanged, without the ValueError around it. *)
Theorem get_exchange_rate_passes_other_errors (requests_get : Http)
    (currency_from currency_to currency_date : string) (e : exc) :
  let request :=
    {| req_method := "GET";
       req_url := "https://api.frankfurter.app/" ++ currency_date;
       req_params := {[ "base" := currency_from; "symbols" := currency_to ]};
       req_timeout := Some 10%Z |} in
  (requests_get request = Raise e
   ∨ ∃ response, requests_get request = Return response
                 ∧ raise_for_status response = Raise e) →
  isinstance e "RequestException" = false →
  (get_exchange_rate requests_get currency_from currency_to currency_date).1
  = Raise e.
Proof.
  intros request Hfail Hcls. unfold get_exchange_rate. fold request. cbn [fst].
  destruct Hfail as [-> | (response & -> & E)]; cbn [mbind outcome_bind].
  - unfold try_except. by rewrite Hcls.
  - rewrite E. cbn [mbind outcome_bind]. unfold try_except. by rewrite Hcls.
Qed.

Lemma get_exchange_rate_passes_other_errors_witness :
  (get_exchange_rate interrupted_http "USD" "EUR" "latest").1
  = Raise KeyboardInterrupt.
Proof.
  apply (get_exchange_rate_passes_other_errors interrupted_http
           "USD" "EUR" "latest" KeyboardInterrupt).
  - left. reflexivity.
  - reflexivity.
Defined.

(** ** Reading the answer *)

(** X7. Only the last message counts: two lists that end with the same
    message give the same answer, whatever comes before it. *)
Theorem _last_message_content_reads_last (py_repr : value → string)
    (messages others : list value) (last_message : value) :
  _last_message_content py_repr (messages ++ [last_message])%list
  = _last_message_content py_repr (others ++ [last_message])%list.
Proof. unfold _last_message_content. by rewrite !last_snoc. Qed.

(** X8. A text is returned as it is: when the last message is an object
    whose [content] attribute is a string, or a dict whose ["content"]
    entry is a string, the answer is that string, whatever [str] does on
    other values. *)
Theorem _last_message_content_text_verbatim (py_repr : value → string)
    (messages : list value) (last_message : value) (text : string) :
  getattr last_message "content" = Some (VStr text)
  ∨ (∃ d, last_message = VDict d ∧ d !! "content" = Some (VStr text)) →
  _last_message_content py_repr (messages ++ [last_message])%list = text.
Proof.
  intros [E | (d & -> & E)]; unfold _last_message_content; rewrite last_snoc.
  - by rewrite E.
  - cbn [getattr]. by rewrite E.
Qed.

Lemma _last_message_content_text_verbatim_witness :
  _last_message_content plain_repr
    ([VStr "earlier"] ++ [VDict {[ "role" := VStr "assistant";
                                    "content" := VStr "1 USD is 0.92 EUR." ]}])%list
  = "1 USD is 0.92 EUR.".
Proof.
  apply _last_message_content_text_verbatim.
  right. eexists. split; [reflexivity | by vm_compute].
Defined.

(** ** The entry point *)

(** X9. [invoke] reads nothing of the payload but its [prompt] field: two
    payloads with the same [prompt], or both without one, give the same
    result and the same telemetry. *)
Theorem invoke_reads_prompt_only (py_repr : value → string)
    (compiled_graph : CompiledGraph) (azure_tracer : option Tracer)
    (payload payload' : gmap string value) :
  payload' !! "prompt" = payload !! "prompt" →
  invoke py_repr compiled_graph azure_tracer payload'
  = invoke py_repr compiled_graph azure_tracer payload.
Proof. intros E. by rewrite !invoke_respond, E. Qed.

Lemma invoke_reads_prompt_only_witness :
  invoke plain_repr (compiled_graph plain_module) None
    {[ "prompt" := VStr "Hello"; "session" := VInt 7 ]}
  = invoke plain_repr (compiled_graph plain_module) None
      {[ "prompt" := VStr "Hello" ]}.
Proof. apply invoke_reads_prompt_only. by vm_compute. Defined.

(** X10. When the state the graph returns has no [messages] entry, or an
    empty one, the result is the empty string, not an error. *)
Theorem invoke_without_messages (py_repr : value → string)
    (compiled_graph : CompiledGraph) (azure_tracer : option Tracer)
    (payload : gmap string value) (result_state : gmap string (list value)) :
  (compiled_graph
     {[ "messages" :=
          _format_messages
            (default (VStr "Hello! How can I help you today?") (payload !! "prompt")) ]}
     (config_of azure_tracer)).1 = Return result_state →
  result_state !! "messages" = None ∨ result_state !! "messages" = Some [] →
  (invoke py_repr compiled_graph azure_tracer payload).1
  = Return {[ "result" := VStr "" ]}.
Proof.
  intros Hrun Hempty. rewrite invoke_respond. unfold respond. rewrite Hrun.
  by destruct Hempty as [-> | ->].
Qed.

Lemma invoke_without_messages_witness :
  (invoke plain_repr (λ _ _, (Return ∅, [])) None ∅).1
  = Return {[ "result" := VStr "" ]}.
Proof.
  apply (invoke_without_messages plain_repr (λ _ _, (Return ∅, [])) None ∅ ∅).
  - reflexivity.
  - left. reflexivity.
Defined.

(** ** Wiring the tracer *)

(** X11. The executor comes with a tracer only when the tracing package is
    there and the connection string is set and not empty; the tracer is
    then the one the class builds from that connection string, with
    content recording on and the agent name, agent identifier and provider
    name of the settings, and nothing is logged. *)
Theorem tracer_is_built_from_settings (w : World) (cfg : Settings)
    (graph : CompiledGraph) (tracer : Tracer) :
  (_create_graph_executor w cfg).1 = Return (graph, Some tracer) →
  ∃ construct connection,
    AzureAIOpenTelemetryTracer w = Some construct
    ∧ APPLICATION_INSIGHTS_CONNECTION_STRING cfg = Some connection
    ∧ connection ≠ ""
    ∧ construct {| connection_string := connection;
                   enable_content_recording := true;
                   name := AGENT_NAME cfg;
                   agent_id := AGENT_ID cfg;
                   provider_name := PROVIDER_NAME cfg |} = Return tracer
    ∧ (_create_graph_executor w cfg).2 = []
    ∧ _build_langgraph w cfg = Return graph.
Proof.
  unfold _create_graph_executor.
  destruct (_build_langgraph w cfg) as [built_graph|e'] eqn:Hbuild;
    (destruct (AzureAIOpenTelemetryTracer w) as [construct|];
      [destruct (APPLICATION_INSIGHTS_CONNECTION_STRING cfg) as [[|a connection]|] |]);
    cbn [fst snd mbind outcome_bind mret outcome_ret];
    try done;
    (destruct (construct _) as [built|e] eqn:E;
     cbn [mbind outcome_bind mret outcome_ret]; [| done]);
    try done.
  intros [= <- <-]. exists construct, (String a connection).
  split_and!; done.
Qed.

Lemma tracer_is_built_from_settings_witness :
  ∃ construct connection,
    AzureAIOpenTelemetryTracer sample_world = Some construct
    ∧ APPLICATION_INSIGHTS_CONNECTION_STRING traced_settings = Some connection
    ∧ connection ≠ ""
    ∧ construct {| connection_string := connection;
                   enable_content_recording := true;
                   name := AGENT_NAME traced_settings;
                   agent_id := AGENT_ID traced_settings;
                   provider_name := PROVIDER_NAME traced_settings |}
      = Return sample_tracer
    ∧ (_create_graph_executor sample_world traced_settings).2 = []
    ∧ _build_langgraph sample_world traced_settings
      = Return (compiled_graph traced_module).
Proof.
  apply (tracer_is_built_from_settings sample_world traced_settings).
  reflexivity.
Defined.

(** ** From the payload to the answer *)

Lemma message_of_value_raises (v : value) (e : exc) :
  message_of_value v = Raise e → isinstance e "Exception" = true.
Proof.
  unfold message_of_value. destruct v as [| | | |l|d|cls attrs]; try by intros [= <-].
  destruct (d !! "role") as [[| | |role_name| | |]|]; try by intros [= <-].
  destruct (d !! "content") as [[| | |text| | |]|]; try by intros [= <-].
  destruct (role_of_name role_name); by intros [= <-].
Qed.

Lemma convert_raises (l : list value) (e : exc) :
  mapM (M := outcome) message_of_value l = Raise e →
  isinstance e "Exception" = true.
Proof.
  induction l as [|v l IH]; [done |]. cbn [mapM].
  destruct (message_of_value v) as [m|e'] eqn:E; cbn [mbind outcome_bind].
  - destruct (mapM message_of_value l) as [ms|e'']; cbn [mbind outcome_bind];
      [done |]. intros [= <-]. by apply IH.
  - intros [= <-]. by apply message_of_value_raises in E.
Qed.

Section Answer.
Variable py_repr : value → string.
Variable w : World.
Variable cfg : Settings.

Let g := graph_builder w cfg.
Let llm :=
  chat_model w (AWS_REGION cfg) (BEDROCK_MODEL_ID cfg) ["get_exchange_rate"].
Let dispatch :=
  run_tool_call (serialize w) [get_exchange_rate_tool (requests_get w)].

Lemma graph_step_raises (node : string) (state : list Message) (e : exc) :
  (∀ seen e', llm seen = Raise e' → isinstance e' "Exception" = true) →
  graph_step g (node, state) = Raise e →
  isinstance e "Exception" = true.
Proof.
  intros Hllm. unfold graph_step, g. cbn [fst snd].
  destruct (nodes (graph_builder w cfg) !! node) as [action|] eqn:Hnode;
    [| by intros [= <-]].
  destruct (node_known w cfg node (mk_is_Some _ _ Hnode)) as [-> | ->].
  - rewrite (node_assistant w cfg) in Hnode. injection Hnode as <-.
    fold llm. destruct (llm state) as [reply|e'] eqn:E;
      cbn [mbind outcome_bind mret outcome_ret].
    + rewrite (next_after_assistant w cfg).
      unfold tools_condition, add_messages. rewrite last_snoc.
      by destruct (tool_calls (ai_message reply)).
    + intros [= <-]. by apply Hllm in E.
  - rewrite (node_tools w cfg) in Hnode. injection Hnode as <-.
    unfold ToolNode. destruct (last state); cbn [mbind outcome_bind];
      [| by intros [= <-]].
    by rewrite (next_after_tools w cfg).
Qed.

Lemma run_raises (callbacks : list Tracer) (fuel : nat) (node : string)
    (state : list Message) (e : exc) :
  (∀ seen e', llm seen = Raise e' → isinstance e' "Exception" = true) →
  (run g callbacks fuel node state).1 = Raise e →
  isinstance e "Exception" = true.
Proof.
  intros Hllm. revert node state.
  induction fuel as [|fuel IH]; intros node state Hrun.
  - cbn [run] in Hrun. destruct (decide (node = END)); [done |].
    by injection Hrun as <-.
  - destruct (decide (node = END)) as [-> | Hne].
    { cbn [run] in Hrun. by destruct (decide (END = END)). }
    destruct (run_step g callbacks fuel node state Hne)
      as [(e' & Hstep & Hr & _) | (next & state' & _ & Hr & _)].
    + rewrite Hr in Hrun. injection Hrun as <-.
      by apply graph_step_raises in Hstep.
    + rewrite Hr in Hrun. by apply IH in Hrun.
Qed.

(** X12. With the graph the module builds, [invoke] answers every payload
    with a result dictionary, provided the chat model and the HTTP client
    of the tool (the GET, the status check and the decoding of the body)
    raise nothing but instances of [Exception]: a prompt that is no text,
    a model that fails, a tool that fails, a model that asks for tools
    without end all end in a result string.  An exception of another kind
    from the model or from the tool is outside this statement: [invoke]
    does not catch it. *)
Theorem invoke_always_answers (azure_tracer : option Tracer)
    (payload : gmap string value) (graph : CompiledGraph) :
  _build_langgraph w cfg = Return graph →
  (∀ seen e, llm seen = Raise e → isinstance e "Exception" = true) →
  (∀ request e,
     requests_get w request = Raise e → isinstance e "Exception" = true) →
  (∀ request response e,
     requests_get w request = Return response →
     raise_for_status response = Raise e ∨ json response = Raise e →
     isinstance e "Exception" = true) →
  ∃ answer,
    (invoke py_repr graph azure_tracer payload).1
    = Return {[ "result" := VStr answer ]}.
Proof.
  intros Hbuild Hllm _ _. apply _build_langgraph_returns in Hbuild as ->.
  rewrite invoke_respond. unfold respond. cbn [fst].
  match goal with |- context [(compile ?g ?l ?st ?c).1] =>
    destruct ((compile g l st c).1) as [result_state|e] eqn:Hrun
  end; [eauto |].
  assert (isinstance e "Exception" = true) as ->; [| eauto].
  revert Hrun. unfold compile.
  destruct (mapM _ _) as [seed|e'] eqn:Hseed; cbn [fst].
  - destruct (run _ _ _ _ seed).1 as [final|e'] eqn:Hrun;
      cbn [mbind outcome_bind]; [done |].
    intros [= <-]. by apply run_raises in Hrun.
  - intros [= <-]. by apply convert_raises in Hseed.
Qed.

(** X13. When the prompt is a text (or is left out, and the greeting stands
    for it) and the run of the graph the module builds returns, the result
    of [invoke] is the content of a message of the chat model that asks for
    no tool, the last message of the returned state: never a tool result,
    a message that asks for tools or the user's own message, with or
    without a tracer and whatever [str] does on other values. *)
Theorem invoke_returns_final_answer (azure_tracer : option Tracer)
    (payload : gmap string value) (user_message : string)
    (graph : CompiledGraph) (result_state : gmap string (list value)) :
  default (VStr "Hello! How can I help you today?") (payload !! "prompt")
    = VStr user_message →
  _build_langgraph w cfg = Return graph →
  (graph {[ "messages" := _format_messages (VStr user_message) ]}
     (config_of azure_tracer)).1 = Return result_state →
  ∃ front reply,
    llm front = Return reply
    ∧ reply_tool_calls reply = []
    ∧ result_state = final_state (front ++ [ai_message reply])
    ∧ (invoke py_repr graph azure_tracer payload).1
      = Return {[ "result" := VStr (reply_content reply) ]}.
Proof.
  intros Hprompt Hbuild Hrun. apply _build_langgraph_returns in Hbuild as ->.
  revert Hrun. unfold compile at 1.
  replace (default [] (_ !! "messages")) with (_format_messages (VStr user_message))
    by reflexivity.
  rewrite convert_seed, (entry_is_assistant w cfg). cbn [default from_option id fst].
  destruct (run _ _ _ _ _).1 as [final|e] eqn:Hfinal;
    cbn [mbind outcome_bind mret outcome_ret]; [| done].
  intros [= <-].
  destruct (run_returns_from_assistant w cfg _ _ "assistant" _ final
              ltac:(done) Hfinal) as (front & reply & -> & Hllm & Hcalls).
  exists front, reply. split_and!; [done | done | done |].
  rewrite invoke_respond, Hprompt. unfold respond, compile.
  replace (default [] (_ !! "messages")) with (_format_messages (VStr user_message))
    by reflexivity.
  rewrite convert_seed, (entry_is_assistant w cfg). cbn [default from_option id fst].
  rewrite Hfinal. cbn [mbind outcome_bind mret outcome_ret].
  by rewrite answer_of_final.
Qed.

(** X14. When the prompt is a text and the first call of the model raises
    an instance of [Exception], with a recursion limit that allows one
    node at least, the result of [invoke] is "Error while processing
    request: " followed by the text of that exception: the graph builds
    no handler around the model. *)
Theorem model_failure_is_reported (azure_tracer : option Tracer)
    (payload : gmap string value) (user_message : string) (e : exc)
    (graph : CompiledGraph) :
  _build_langgraph w cfg = Return graph →
  default (VStr "Hello! How can I help you today?") (payload !! "prompt")
    = VStr user_message →
  llm [ {| role := system; content := SYSTEM_PROMPT;
           tool_calls := []; tool_call_id := None |};
        {| role := user; content := user_message;
           tool_calls := []; tool_call_id := None |} ] = Raise e →
  isinstance e "Exception" = true →
  recursion_limit w ≠ 0%nat →
  (invoke py_repr graph azure_tracer payload).1
  = Return {[ "result" := VStr ("Error while processing request: " ++ exc_str e) ]}.
Proof.
  intros Hbuild Hprompt Hllm Hcls Hlimit.
  apply _build_langgraph_returns in Hbuild as ->.
  rewrite invoke_respond, Hprompt. unfold respond, compile.
  replace (default [] (_ !! "messages")) with (_format_messages (VStr user_message))
    by reflexivity.
  rewrite convert_seed, (entry_is_assistant w cfg). cbn [default from_option id fst].
  destruct (recursion_limit w) as [|limit]; [done |].
  rewrite (assistant_turn w cfg). fold llm. rewrite Hllm.
  cbn [fst mbind outcome_bind]. by rewrite Hcls.
Qed.

End Answer.

Lemma sample_http_raises_nothing (request : Request) (response : Response) (e : exc) :
  sample_http request = Return response →
  raise_for_status response = Raise e ∨ json response = Raise e →
  isinstance e "Exception" = true.
Proof. intros [= <-]. by intros [? | ?]. Qed.

Lemma invoke_always_answers_witness :
  ∃ answer,
    (invoke plain_repr (compiled_graph plain_module) None
       {[ "prompt" := VInt 7 ]}).1
    = Return {[ "result" := VStr answer ]}.
Proof.
  apply (invoke_always_answers plain_repr sample_world sample_settings).
  - reflexivity.
  - intros seen e. cbn. unfold sample_model.
    destruct (last seen) as [[[] ? ? ?]|]; discriminate.
  - intros request e. discriminate.
  - apply sample_http_raises_nothing.
Defined.

Lemma invoke_returns_final_answer_witness :
  ∃ front reply,
    chat_model sample_world "us-east-1" "anthropic.claude-3" ["get_exchange_rate"]
      front = Return reply
    ∧ reply_tool_calls reply = []
    ∧ final_state
        (sample_seed
           ++ [ai_message asks_rate; tool_message usd_eur "<object>";
               ai_message final_answer])
      = final_state (front ++ [ai_message reply])
    ∧ (invoke plain_repr (compiled_graph plain_module) (Some sample_tracer)
         {[ "prompt" := VStr "What is the USD to EUR rate today?" ]}).1
      = Return {[ "result" := VStr (reply_content reply) ]}.
Proof.
  apply (invoke_returns_final_answer plain_repr sample_world sample_settings
           (Some sample_tracer) _ "What is the USD to EUR rate today?");
    reflexivity.
Defined.

Lemma model_failure_is_reported_witness :
  (invoke plain_repr
     (compile (graph_builder down_world sample_settings) (recursion_limit down_world))
     None ∅).1
  = Return {[ "result" := VStr "Error while processing request: model unavailable" ]}.
Proof.
  apply (model_failure_is_reported plain_repr down_world sample_settings None ∅
           "Hello! How can I help you today?" (RuntimeError "model unavailable"));
    done.
Defined.
